(** * Gesture tracking worker and its window

    Shallow embedding of [src/tracker_worker.py] ([EMAFilter] and
    [VideoWorker.run]) and of the slots of [src/pyqt_game_app.py] the worker's
    signals are connected to.  Python floats are IEEE-754 binary64 values and
    are embedded as Rocq's primitive floats: sums, differences, products,
    quotients, [math.sqrt] and comparisons are the correctly rounded
    operations of the source.  The one operation that is not is [** 2], which
    CPython hands to the platform's [pow]; that function is a parameter of
    the development ([platform_pow] below), so that every statement about
    the worker holds for whatever the C library computes.  Qt signals emitted
    by the worker are collected in emission order as a list of [Signal]s;
    [print] calls are not modelled. *)

From Stdlib Require Import PrimFloat.
From Stdlib Require Import Floats.
From Stdlib Require Import Bool List String ZArith Lia.
Import ListNotations.

Set Warnings "-inexact-float".

Local Open Scope float_scope.

(** ** Landmarks and hands (the values handed over by the landmark source) *)

(** The landmark indices of [mp_hands.HandLandmark], in enumeration order. *)
Inductive HandLandmark : Set :=
| WRIST
| THUMB_CMC | THUMB_MCP | THUMB_IP | THUMB_TIP
| INDEX_FINGER_MCP | INDEX_FINGER_PIP | INDEX_FINGER_DIP | INDEX_FINGER_TIP
| MIDDLE_FINGER_MCP | MIDDLE_FINGER_PIP | MIDDLE_FINGER_DIP | MIDDLE_FINGER_TIP
| RING_FINGER_MCP | RING_FINGER_PIP | RING_FINGER_DIP | RING_FINGER_TIP
| PINKY_MCP | PINKY_PIP | PINKY_DIP | PINKY_TIP.

(** A normalized landmark: the [.x], [.y], [.z] attributes. *)
Record Point : Set := mkPoint { px : float; py : float; pz : float }.

(** One detected hand: [multi_hand_landmarks[idx].landmark] together with
    [multi_handedness[idx].classification[0].label] (the two result lists are
    parallel, so they are kept zipped). *)
Record Hand : Type := mkHand {
  landmark : HandLandmark -> Point;
  label : string
}.

(** What one successful loop iteration observes: the hands returned by
    [hands.process] (an empty list when [multi_hand_landmarks] is falsy) and
    the value of [time.time()] read right after it. *)
Record Capture : Type := mkCapture {
  multi_hand_landmarks : list Hand;
  current_time : float
}.

(** ** Signals *)

Inductive Signal : Set :=
| image_ready
| coords_ready (x_filtered y_filtered : float)
| gesture_ready (is_grasping : bool)
| page_flick_ready (direction : Z)
| return_home_ready.

Definition is_return_home (s : Signal) : bool :=
  match s with return_home_ready => true | _ => false end.

Definition is_page_flick (s : Signal) : bool :=
  match s with page_flick_ready _ => true | _ => false end.

(** ** EMAFilter *)

Module EMAFilter.

(** [last_x] and [last_y] are [None] together (after [__init__]) and set
    together (by [filter]); they are kept as one optional pair. *)
Record t : Set := mk {
  alpha : float;
  last : option (float * float)
}.

(** [EMAFilter(alpha)] *)
Definition init (a : float) : t := mk a None.

(** [EMAFilter.filter]: the updated filter and the returned pair. *)
Definition filter (self : t) (new_x new_y : float) : t * (float * float) :=
  match last self with
  | None => (mk (alpha self) (Some (new_x, new_y)), (new_x, new_y))
  | Some (last_x, last_y) =>
      let last_x' := alpha self * new_x + (1 - alpha self) * last_x in
      let last_y' := alpha self * new_y + (1 - alpha self) * last_y in
      (mk (alpha self) (Some (last_x', last_y')), (last_x', last_y'))
  end.

(** Successive calls of [filter] on a stream of raw points: the outputs,
    in call order. *)
Fixpoint outputs (self : t) (raw : list (float * float)) : list (float * float) :=
  match raw with
  | [] => []
  | (new_x, new_y) :: rest =>
      let (self', out) := filter self new_x new_y in
      out :: outputs self' rest
  end.

End EMAFilter.

(** ** VideoWorker *)

Record VideoWorker : Set := mkWorker {
  running : bool;
  filter_index : EMAFilter.t;
  last_pinch_time : float;
  is_pinching : bool;
  last_flick_time : float;
  is_flicking : bool
}.

Definition GRASP_THRESHOLD : float := 0.20.
Definition PINCH_THRESHOLD : float := 0.04.
Definition PINCH_COOLDOWN : float := 1.0.
Definition FLICK_THRESHOLD : float := 0.07.
Definition FLICK_COOLDOWN : float := 1.0.
Definition Y_COMPENSATION_OFFSET : float := 0.04.

(** [VideoWorker.__init__] *)
Definition init : VideoWorker :=
  mkWorker true (EMAFilter.init 0.3) 0 false 0 false.

Definition set_running (self : VideoWorker) (b : bool) : VideoWorker :=
  mkWorker b (filter_index self) (last_pinch_time self) (is_pinching self)
           (last_flick_time self) (is_flicking self).

Definition set_filter_index (self : VideoWorker) (f : EMAFilter.t) : VideoWorker :=
  mkWorker (running self) f (last_pinch_time self) (is_pinching self)
           (last_flick_time self) (is_flicking self).

Definition set_last_pinch_time (self : VideoWorker) (v : float) : VideoWorker :=
  mkWorker (running self) (filter_index self) v (is_pinching self)
           (last_flick_time self) (is_flicking self).

Definition set_is_pinching (self : VideoWorker) (b : bool) : VideoWorker :=
  mkWorker (running self) (filter_index self) (last_pinch_time self) b
           (last_flick_time self) (is_flicking self).

Definition set_last_flick_time (self : VideoWorker) (v : float) : VideoWorker :=
  mkWorker (running self) (filter_index self) (last_pinch_time self) (is_pinching self)
           v (is_flicking self).

Definition set_is_flicking (self : VideoWorker) (b : bool) : VideoWorker :=
  mkWorker (running self) (filter_index self) (last_pinch_time self) (is_pinching self)
           (last_flick_time self) b.

(** ** Sample hands and frames *)

Module Samples.

(** A platform whose [pow] is correctly rounded: the square is the product. *)
Definition exact_pow (v : float) : float := v * v.

(** A hand given by its wrist and five fingertips; the remaining joints
    are placed at the wrist (no classifier reads them). *)
Definition hand_of (wrist thumb index middle ring pinky : Point) (handedness : string)
  : Hand :=
  mkHand (fun i => match i with
                   | THUMB_TIP => thumb
                   | INDEX_FINGER_TIP => index
                   | MIDDLE_FINGER_TIP => middle
                   | RING_FINGER_TIP => ring
                   | PINKY_TIP => pinky
                   | _ => wrist
                   end) handedness.

(** In the four hands below every coordinate difference that a classifier
    squares is 0, 1 or -1, and the squares of these are 0 and 1 on every
    platform: how these hands are classified does not depend on the
    platform's [pow]. *)

(** Open hand, upright in the image: wrist at the bottom, the four
    fingertips together at the top, the thumb out to the side. *)
Definition open_hand (handedness : string) : Hand :=
  hand_of (mkPoint 0 1 0) (mkPoint 1 0 0) (mkPoint 0 0 0) (mkPoint 0 0 0)
          (mkPoint 0 0 0) (mkPoint 0 0 0) handedness.

(** Thumb tip on the middle fingertip, the pinky stretched away. *)
Definition pinch_hand (handedness : string) : Hand :=
  hand_of (mkPoint 0 1 0) (mkPoint 0 0 0) (mkPoint 0 0 0) (mkPoint 0 0 0)
          (mkPoint 0 0 0) (mkPoint 1 0 0) handedness.

(** Thumb tip on the pinky tip, away from the other fingertips. *)
Definition flick_hand (handedness : string) : Hand :=
  hand_of (mkPoint 0 1 0) (mkPoint 1 0 0) (mkPoint 0 0 0) (mkPoint 0 0 0)
          (mkPoint 0 0 0) (mkPoint 1 0 0) handedness.

(** Closed fist: the wrist and every fingertip at one point of the image. *)
Definition fist (handedness : string) : Hand :=
  hand_of (mkPoint 0.5 0.8 0) (mkPoint 0.5 0.8 0) (mkPoint 0.5 0.8 0) (mkPoint 0.5 0.8 0)
          (mkPoint 0.5 0.8 0) (mkPoint 0.5 0.8 0) handedness.


(** A wall-clock origin of the magnitude [time.time()] returns. *)
Definition T0 : float := 1700000000.

Definition frame (hands : list Hand) (offset : float) : Capture :=
  mkCapture hands (T0 + offset).

End Samples.

(** * The consumer of the signals: [GameWindow] of [src/pyqt_game_app.py]

    The window's Python-level state and its slots.  Qt rendering (item
    styling, pixmaps shown, window title, timer intervals) and the fruit
    sprites are left out: no modelled field reads them.  What a slot reads
    from the Qt side when it runs is passed in as a [Qt] record.  An uncaught
    [IndexError] or [KeyError] is the result [None]. *)

Module GameWindow.

Definition GAME_WIDTH : float := 1200.
Definition GAME_HEIGHT : float := 800.

(** [QColor(r, g, b)] *)
Definition QColor : Set := (Z * Z * Z)%type.

Definition PAPER_COLOR : QColor := (255, 250, 240)%Z.

Definition COLOR_CHOICES : list (string * QColor) :=
  [("Red"%string, (255, 0, 0)%Z); ("Green"%string, (0, 255, 0)%Z);
   ("Blue"%string, (0, 0, 255)%Z); ("Yellow"%string, (255, 255, 0)%Z);
   ("Eraser"%string, PAPER_COLOR)].

Definition COLOR_ORDER : list string := map fst COLOR_CHOICES.

Definition COLOR_TILE_SIZE : float := 50.
Definition COLOR_AREA_WIDTH : float := COLOR_TILE_SIZE * 2.

Definition PEN_SIZES : list (string * Z) :=
  [("Small"%string, 8%Z); ("Medium"%string, 18%Z); ("Large"%string, 36%Z)].

(** [self.game_list], set once in [__init__]. *)
Definition game_list : list string :=
  ["Drawing App (体感绘画板)"; "Fruit Slicer (体感水果忍者)"; "Exit Game (退出)"]%string.

(** [len(self.launcher_items)]: the title and one text item per game. *)
Definition launcher_items_len : Z := 1 + Z.of_nat (List.length game_list).

Definition max_trail_length : nat := 5.

(** [d[k]] on a dict; [None] is [KeyError]. *)
Fixpoint lookup {A : Type} (d : list (string * A)) (k : string) : option A :=
  match d with
  | [] => None
  | (k', v) :: rest => if String.eqb k k' then Some v else lookup rest k
  end.

(** [l[i]] on a list, negative indices counting from the end; [None] is
    [IndexError]. *)
Definition getitem {A : Type} (l : list A) (i : Z) : option A :=
  let n := Z.of_nat (List.length l) in
  if (0 <=? i)%Z then nth_error l (Z.to_nat i)
  else if (- n <=? i)%Z then nth_error l (Z.to_nat (n + i))
  else None.

(** [min(a, b)] and [max(a, b)] of two numbers: the first argument is kept
    unless the second compares strictly smaller (resp. greater). *)
Definition py_min (a b : float) : float := if b <? a then b else a.
Definition py_max (a b : float) : float := if a <? b then b else a.

(** A line painted on the canvas pixmap: [drawLine] with the pen in use. *)
Record Segment : Set := mkSegment {
  seg_from : float * float;
  seg_to : float * float;
  seg_color : QColor;
  seg_width : Z
}.

(** What a slot reads from Qt while it runs: the viewport size (integers,
    as the floats they become in the products below) and, per colour or size
    tile name, whether the cursor's scene rectangle intersects the tile's. *)
Record Qt : Type := mkQt {
  view_width : float;
  view_height : float;
  intersects : string -> bool
}.

(** [drawing_canvas] tells whether the attribute is not [None];
    [canvas_pixmap] is the list of lines painted since the last fill;
    [color_tiles] holds each tile's [color_name], [size_tiles] each tile's
    [size_name] and [pen_size]; [spawn_timer] tells whether the timer is
    active; [closed] whether [close()] was called. *)
Record t : Type := mk {
  game_state : string;
  is_grasping : bool;
  cursor_pos : float * float;
  knife_trail : list (float * float);
  current_selection : Z;
  launcher_visible : bool;
  drawing_canvas : bool;
  canvas_pixmap : list Segment;
  current_color : QColor;
  current_pen_size : Z;
  color_tiles : list string;
  size_tiles : list (string * Z);
  last_draw_pos : option (float * float);
  spawn_timer : bool;
  closed : bool
}.

(** [GameWindow.__init__] *)
Definition init : t :=
  mk "launcher" false (0, 0) [] 0 true false [] (255, 0, 0)%Z 18 [] [] None false false.

Definition set_game_state (self : t) (v : string) : t :=
  mk v (is_grasping self) (cursor_pos self) (knife_trail self) (current_selection self)
     (launcher_visible self) (drawing_canvas self) (canvas_pixmap self) (current_color self)
     (current_pen_size self) (color_tiles self) (size_tiles self) (last_draw_pos self) (spawn_timer
     self) (closed self).

Definition set_is_grasping (self : t) (v : bool) : t :=
  mk (game_state self) v (cursor_pos self) (knife_trail self) (current_selection self)
     (launcher_visible self) (drawing_canvas self) (canvas_pixmap self) (current_color self)
     (current_pen_size self) (color_tiles self) (size_tiles self) (last_draw_pos self) (spawn_timer
     self) (closed self).

Definition set_cursor_pos (self : t) (v : float * float) : t :=
  mk (game_state self) (is_grasping self) v (knife_trail self) (current_selection self)
     (launcher_visible self) (drawing_canvas self) (canvas_pixmap self) (current_color self)
     (current_pen_size self) (color_tiles self) (size_tiles self) (last_draw_pos self) (spawn_timer
     self) (closed self).

Definition set_knife_trail (self : t) (v : list (float * float)) : t :=
  mk (game_state self) (is_grasping self) (cursor_pos self) v (current_selection self)
     (launcher_visible self) (drawing_canvas self) (canvas_pixmap self) (current_color self)
     (current_pen_size self) (color_tiles self) (size_tiles self) (last_draw_pos self) (spawn_timer
     self) (closed self).

Definition set_current_selection (self : t) (v : Z) : t :=
  mk (game_state self) (is_grasping self) (cursor_pos self) (knife_trail self) v
     (launcher_visible self) (drawing_canvas self) (canvas_pixmap self) (current_color self)
     (current_pen_size self) (color_tiles self) (size_tiles self) (last_draw_pos self) (spawn_timer
     self) (closed self).

Definition set_launcher_visible (self : t) (v : bool) : t :=
  mk (game_state self) (is_grasping self) (cursor_pos self) (knife_trail self)
     (current_selection self) v (drawing_canvas self) (canvas_pixmap self) (current_color self)
     (current_pen_size self) (color_tiles self) (size_tiles self) (last_draw_pos self) (spawn_timer
     self) (closed self).

Definition set_drawing_canvas (self : t) (v : bool) : t :=
  mk (game_state self) (is_grasping self) (cursor_pos self) (knife_trail self)
     (current_selection self) (launcher_visible self) v (canvas_pixmap self) (current_color self)
     (current_pen_size self) (color_tiles self) (size_tiles self) (last_draw_pos self) (spawn_timer
     self) (closed self).

Definition set_canvas_pixmap (self : t) (v : list Segment) : t :=
  mk (game_state self) (is_grasping self) (cursor_pos self) (knife_trail self)
     (current_selection self) (launcher_visible self) (drawing_canvas self) v (current_color self)
     (current_pen_size self) (color_tiles self) (size_tiles self) (last_draw_pos self) (spawn_timer
     self) (closed self).

Definition set_current_color (self : t) (v : QColor) : t :=
  mk (game_state self) (is_grasping self) (cursor_pos self) (knife_trail self)
     (current_selection self) (launcher_visible self) (drawing_canvas self) (canvas_pixmap self) v
     (current_pen_size self) (color_tiles self) (size_tiles self) (last_draw_pos self) (spawn_timer
     self) (closed self).

Definition set_current_pen_size (self : t) (v : Z) : t :=
  mk (game_state self) (is_grasping self) (cursor_pos self) (knife_trail self)
     (current_selection self) (launcher_visible self) (drawing_canvas self) (canvas_pixmap self)
     (current_color self) v (color_tiles self) (size_tiles self) (last_draw_pos self) (spawn_timer
     self) (closed self).

Definition set_color_tiles (self : t) (v : list string) : t :=
  mk (game_state self) (is_grasping self) (cursor_pos self) (knife_trail self)
     (current_selection self) (launcher_visible self) (drawing_canvas self) (canvas_pixmap self)
     (current_color self) (current_pen_size self) v (size_tiles self) (last_draw_pos self)
     (spawn_timer self) (closed self).

Definition set_size_tiles (self : t) (v : list (string * Z)) : t :=
  mk (game_state self) (is_grasping self) (cursor_pos self) (knife_trail self)
     (current_selection self) (launcher_visible self) (drawing_canvas self) (canvas_pixmap self)
     (current_color self) (current_pen_size self) (color_tiles self) v (last_draw_pos self)
     (spawn_timer self) (closed self).

Definition set_last_draw_pos (self : t) (v : option (float * float)) : t :=
  mk (game_state self) (is_grasping self) (cursor_pos self) (knife_trail self)
     (current_selection self) (launcher_visible self) (drawing_canvas self) (canvas_pixmap self)
     (current_color self) (current_pen_size self) (color_tiles self) (size_tiles self) v
     (spawn_timer self) (closed self).

Definition set_spawn_timer (self : t) (v : bool) : t :=
  mk (game_state self) (is_grasping self) (cursor_pos self) (knife_trail self)
     (current_selection self) (launcher_visible self) (drawing_canvas self) (canvas_pixmap self)
     (current_color self) (current_pen_size self) (color_tiles self) (size_tiles self)
     (last_draw_pos self) v (closed self).

Definition set_closed (self : t) (v : bool) : t :=
  mk (game_state self) (is_grasping self) (cursor_pos self) (knife_trail self)
     (current_selection self) (launcher_visible self) (drawing_canvas self) (canvas_pixmap self)
     (current_color self) (current_pen_size self) (color_tiles self) (size_tiles self)
     (last_draw_pos self) (spawn_timer self) v.

(** [_setup_drawing_app]: a freshly filled pixmap, one tile per colour of
    [COLOR_ORDER] and per size of [SIZE_ORDER]. *)
Definition _setup_drawing_app (self : t) : t :=
  let self := set_canvas_pixmap self [] in
  let self := set_drawing_canvas self true in
  let self := set_color_tiles self COLOR_ORDER in
  let self := set_size_tiles self PEN_SIZES in
  set_last_draw_pos self None.

Definition _cleanup_drawing_app (self : t) : t :=
  let self := set_drawing_canvas self false in
  let self := set_color_tiles self [] in
  let self := set_size_tiles self [] in
  let self := set_last_draw_pos self None in
  let self := set_current_color self (255, 0, 0)%Z in
  set_current_pen_size self 18.

Definition _cleanup_fruit_slicer (self : t) : t :=
  set_spawn_timer self false.

Definition _show_launcher (self : t) (show : bool) : t :=
  set_launcher_visible self show.

Definition switch_to_game_mode (self : t) (mode : string) : t :=
  let self :=
    if String.eqb (game_state self) "drawing_app" then _cleanup_drawing_app self
    else if String.eqb (game_state self) "fruit_slicer" then _cleanup_fruit_slicer self
    else self in
  let self := set_game_state self mode in
  if String.eqb mode "drawing_app" then
    _setup_drawing_app (_show_launcher self false)
  else if String.eqb mode "fruit_slicer" then
    set_spawn_timer (_show_launcher self false) true
  else if String.eqb mode "launcher" then
    _show_launcher self true
  else self.

Definition handle_flick_gesture (self : t) (direction : Z) : option t :=
  if negb (String.eqb (game_state self) "launcher") then Some self
  else
    let num_games := Z.of_nat (List.length game_list) in
    let self := set_current_selection self
                  ((current_selection self + direction) mod num_games)%Z in
    let self :=
      if (current_selection self <? 0)%Z
      then set_current_selection self (current_selection self + num_games)%Z
      else self in
    match getitem game_list (current_selection self) with
    | Some _ => Some self
    | None => None
    end.

(** [closeEvent], reached through [self.close()]: the timers and the worker
    are stopped. *)
Definition closeEvent (self : t) : t :=
  set_closed (set_spawn_timer self false) true.

Definition start_game (self : t) (name : string) : t :=
  if String.eqb name "Drawing App (体感绘画板)" then switch_to_game_mode self "drawing_app"
  else if String.eqb name "Fruit Slicer (体感水果忍者)" then
    switch_to_game_mode self "fruit_slicer"
  else if String.eqb name "Exit Game (退出)" then closeEvent self
  else self.

Definition check_launcher_click (self : t) : option t :=
  if (launcher_items_len <=? current_selection self + 1)%Z then Some self
  else
    match getitem game_list (current_selection self) with
    | Some game_name => Some (start_game self game_name)
    | None => None
    end.

(** The first colour tile the cursor touches, if any. *)
Definition check_color_and_size_pickup (qt : Qt) (self : t) : option t :=
  match find (intersects qt) (color_tiles self) with
  | Some color_name =>
      match lookup COLOR_CHOICES color_name with
      | Some color => Some (set_current_color self color)
      | None => None
      end
  | None =>
      match find (fun tile => intersects qt (fst tile)) (size_tiles self) with
      | Some tile => Some (set_current_pen_size self (snd tile))
      | None => Some self
      end
  end.

Definition handle_grasp_state (qt : Qt) (self : t) (grasping_now : bool) : option t :=
  let was_grasping := is_grasping self in
  let self := set_is_grasping self grasping_now in
  if is_grasping self then
    if negb was_grasping then
      if String.eqb (game_state self) "launcher" then check_launcher_click self
      else if String.eqb (game_state self) "drawing_app"
           then check_color_and_size_pickup qt self
           else Some self
    else Some self
  else Some (set_last_draw_pos self None).

Definition update_knife_position (qt : Qt) (self : t) (x_norm y_norm : float) : t :=
  let x_pixel := x_norm * view_width qt * 1.5 in
  let y_pixel := y_norm * view_height qt * 1.5 in
  let x_pixel := py_max 0 (py_min x_pixel GAME_WIDTH) in
  let y_pixel := py_max 0 (py_min y_pixel GAME_HEIGHT) in
  let self := set_cursor_pos self (x_pixel, y_pixel) in
  if String.eqb (game_state self) "drawing_app"
     || String.eqb (game_state self) "fruit_slicer"
  then set_knife_trail self (knife_trail self ++ [(x_pixel, y_pixel)])
  else self.

Definition draw_on_canvas (self : t) : t :=
  if negb (is_grasping self) || negb (drawing_canvas self) then set_last_draw_pos self None
  else
    let current_pos := cursor_pos self in
    let canvas_width := GAME_WIDTH - COLOR_AREA_WIDTH in
    if canvas_width <=? fst current_pos then set_last_draw_pos self None
    else
      match last_draw_pos self with
      | None => set_last_draw_pos self (Some current_pos)
      | Some last =>
          let self :=
            set_canvas_pixmap self
              (canvas_pixmap self
                 ++ [mkSegment last current_pos (current_color self) (current_pen_size self)]) in
          set_last_draw_pos self (Some current_pos)
      end.

(** [game_loop]; in the fruit mode the sprites move, which no field kept
    here records. *)
Definition game_loop (self : t) : t :=
  let self :=
    if String.eqb (game_state self) "drawing_app" then draw_on_canvas self else self in
  if (max_trail_length <? List.length (knife_trail self))%nat
  then set_knife_trail self (tl (knife_trail self))
  else self.

(** The slot each signal of the worker is connected to. *)
Definition deliver (qt : Qt) (self : t) (s : Signal) : option t :=
  match s with
  | image_ready => Some self
  | coords_ready x_norm y_norm => Some (update_knife_position qt self x_norm y_norm)
  | gesture_ready grasping_now => handle_grasp_state qt self grasping_now
  | page_flick_ready direction => handle_flick_gesture self direction
  | return_home_ready => Some (switch_to_game_mode self "launcher")
  end.

(** What the window's event loop dispatches: a signal of the worker (with
    the Qt readings at that moment) or a tick of the game timer. *)
Inductive Event : Type :=
| signal (qt : Qt) (s : Signal)
| game_timer_timeout.

Definition dispatch (self : t) (e : Event) : option t :=
  match e with
  | signal qt s => deliver qt self s
  | game_timer_timeout => Some (game_loop self)
  end.

Fixpoint play (self : t) (events : list Event) : option t :=
  match events with
  | [] => Some self
  | e :: rest =>
      match dispatch self e with
      | Some self' => play self' rest
      | None => None
      end
  end.

(** The signals among a list of events, in order. *)
Definition signals_of (events : list Event) : list Signal :=
  flat_map (fun e => match e with
                     | signal _ s => [s]
                     | game_timer_timeout => []
                     end) events.

(** [events] delivers exactly the signals [sigs], in order, each with
    whatever Qt readings, and with game timer ticks anywhere in between. *)
Definition delivers (events : list Event) (sigs : list Signal) : Prop :=
  signals_of events = sigs.

(** *** What every reachable window satisfies *)

Definition RED : QColor := (255, 0, 0)%Z.

(** The mode and what goes with it: the launcher items are shown exactly in
    the launcher, the canvas and the tiles exist exactly in the drawing
    app, the spawn timer runs exactly in the fruit slicer, and outside the
    drawing app the pen is red, medium and not on the canvas. *)
Definition mode_ok (w : t) : Prop :=
  (game_state w = "launcher"%string
   /\ launcher_visible w = true /\ drawing_canvas w = false /\ spawn_timer w = false
   /\ color_tiles w = [] /\ size_tiles w = []
   /\ current_color w = RED /\ current_pen_size w = 18%Z /\ last_draw_pos w = None)
  \/ (game_state w = "drawing_app"%string
      /\ launcher_visible w = false /\ drawing_canvas w = true /\ spawn_timer w = false
      /\ color_tiles w = COLOR_ORDER /\ size_tiles w = PEN_SIZES)
  \/ (game_state w = "fruit_slicer"%string
      /\ launcher_visible w = false /\ drawing_canvas w = false /\ spawn_timer w = true
      /\ color_tiles w = [] /\ size_tiles w = []
      /\ current_color w = RED /\ current_pen_size w = 18%Z /\ last_draw_pos w = None).

Definition selection_ok (w : t) : Prop :=
  (0 <= current_selection w < Z.of_nat (List.length game_list))%Z.

Definition pen_ok (color : QColor) (width : Z) : Prop :=
  In color (map snd COLOR_CHOICES) /\ In width (map snd PEN_SIZES).

Definition palette_ok (w : t) : Prop :=
  pen_ok (current_color w) (current_pen_size w)
  /\ Forall (fun s => pen_ok (seg_color s) (seg_width s)) (canvas_pixmap w).

Definition stroke_ok (w : t) : Prop :=
  last_draw_pos w <> None -> is_grasping w = true.

Definition in_scene (p : float * float) : Prop :=
  (0 <=? fst p) = true /\ (fst p <=? GAME_WIDTH) = true
  /\ (0 <=? snd p) = true /\ (snd p <=? GAME_HEIGHT) = true.

Definition cursor_ok (w : t) : Prop :=
  in_scene (cursor_pos w) /\ Forall in_scene (knife_trail w).

Definition window_ok (w : t) : Prop :=
  mode_ok w /\ selection_ok w /\ palette_ok w /\ stroke_ok w /\ cursor_ok w.

End GameWindow.

(** ** Sample sessions of the window *)

Module WindowSamples.

(** A 640 x 480 viewport with the cursor away from every tile. *)
Definition qt0 : GameWindow.Qt := GameWindow.mkQt 640 480 (fun _ => false).

(** A fist closed in the launcher on the first entry: the drawing app opens. *)
Definition open_drawing : list GameWindow.Event :=
  [GameWindow.signal qt0 (gesture_ready true)].

Definition drawing : GameWindow.t :=
  GameWindow.switch_to_game_mode
    (GameWindow.set_is_grasping GameWindow.init true) "drawing_app".

(** Frames under a closed fist, the hand lost in between. *)
Definition fist_frames : list Capture :=
  [Samples.frame [Samples.fist "Right"] 0; Samples.frame [] 0.5;
   Samples.frame [Samples.fist "Right"] 1].

(** The signals of a list, each followed by a tick of the game timer. *)
Definition with_ticks (sigs : list Signal) : list GameWindow.Event :=
  flat_map (fun s => [GameWindow.signal qt0 s; GameWindow.game_timer_timeout]) sigs.

End WindowSamples.

(** * The worker's frame pipeline, for any platform *)

Section Platform.

(** The C library's [pow(x, 2.0)], for the finite [x] > 0 other than 1 that
    CPython passes on to it. *)
Variable platform_pow : float -> float.

(** [v ** 2] on a float, as [float.__pow__] evaluates it: a NaN stays, an
    infinity gives +inf, a zero gives 0, a negative base is replaced by its
    absolute value (the exponent is an even integer), 1 gives 1, and the rest
    goes to the platform's [pow].  An [OverflowError] arises where that
    result is infinite, beyond 1.3e154 in absolute value; landmark coordinates
    are float32 values, whose differences stay below 6.9e38, so that case is
    out of reach and is not modelled. *)
Definition pow2 (v : float) : float :=
  if is_nan v then v
  else if is_infinity v then abs v
  else if v =? 0 then 0
  else if abs v =? 1 then 1
  else platform_pow (abs v).

(** [math.sqrt((a.x - b.x) ** 2 + (a.y - b.y) ** 2 + (a.z - b.z) ** 2)] *)
Definition distance (a b : Point) : float :=
  sqrt (pow2 (px a - px b) + pow2 (py a - py b) + pow2 (pz a - pz b)).

(** *** 1. Grasp detection on the cursor hand *)

Definition finger_tips_indices : list HandLandmark :=
  [INDEX_FINGER_TIP; MIDDLE_FINGER_TIP; RING_FINGER_TIP; PINKY_TIP].

(** The accumulation loop: [total_distance] starts at 0 and adds the distance
    of each tip to the wrist. *)
Definition total_distance (hand_landmarks_cursor : Hand) : float :=
  let palm_point := landmark hand_landmarks_cursor WRIST in
  fold_left
    (fun total tip_index =>
       total + distance (landmark hand_landmarks_cursor tip_index) palm_point)
    finger_tips_indices 0.

(** [total_distance / len(finger_tips_indices)]; the list has four entries. *)
Definition average_distance (hand_landmarks_cursor : Hand) : float :=
  total_distance hand_landmarks_cursor / 4.

Definition grasping (hand_landmarks_cursor : Hand) : bool :=
  average_distance hand_landmarks_cursor <? GRASP_THRESHOLD.

(** *** 2. Tracked coordinates of the index fingertip *)

Definition track (self : VideoWorker) (hand_landmarks_cursor : Hand) (is_grasping : bool)
  : VideoWorker * list Signal :=
  let index_tip := landmark hand_landmarks_cursor INDEX_FINGER_TIP in
  let x_raw := px index_tip in
  let y_raw := py index_tip in
  let y_raw := if is_grasping then y_raw - Y_COMPENSATION_OFFSET else y_raw in
  let '(f, (x_filtered, y_filtered)) := EMAFilter.filter (filter_index self) x_raw y_raw in
  (set_filter_index self f, [coords_ready x_filtered y_filtered]).

(** *** 3. Pinch detection (thumb tip to middle fingertip) *)

Definition pinch_distance (hand_landmarks_cursor : Hand) : float :=
  distance (landmark hand_landmarks_cursor THUMB_TIP)
           (landmark hand_landmarks_cursor MIDDLE_FINGER_TIP).

Definition is_current_pinch (hand_landmarks_cursor : Hand) : bool :=
  pinch_distance hand_landmarks_cursor <? PINCH_THRESHOLD.

(** The guard of the inner [if]: not grasping, not already pinching, and the
    cooldown exceeded. *)
Definition pinch_guard (self : VideoWorker) (is_grasping : bool) (now : float) : bool :=
  negb is_grasping && negb (is_pinching self)
  && (PINCH_COOLDOWN <? now - last_pinch_time self).

Definition pinch (self : VideoWorker) (hand_landmarks_cursor : Hand)
    (is_grasping : bool) (now : float) : VideoWorker * list Signal :=
  let '(self, pinch_pose_detected, out) :=
    if is_current_pinch hand_landmarks_cursor then
      if pinch_guard self is_grasping now then
        (set_is_pinching (set_last_pinch_time self now) true, true, [return_home_ready])
      else (self, true, [])
    else (self, false, []) in
  let self :=
    if negb pinch_pose_detected && is_pinching self
    then set_is_pinching self false else self in
  (self, out).

(** *** 4. Flick detection (thumb tip to pinky tip), over every hand *)

Definition flick_distance (hand_landmarks : Hand) : float :=
  distance (landmark hand_landmarks THUMB_TIP) (landmark hand_landmarks PINKY_TIP).

Definition is_current_flick (hand_landmarks : Hand) : bool :=
  flick_distance hand_landmarks <? FLICK_THRESHOLD.

Definition flick_guard (self : VideoWorker) (now : float) : bool :=
  negb (is_flicking self) && (FLICK_COOLDOWN <? now - last_flick_time self).

(** The signals of the [if handedness == 'Right' ... elif handedness == 'Left'] block. *)
Definition flick_emit (handedness : string) : list Signal :=
  if String.eqb handedness "Right" then [page_flick_ready 1]
  else if String.eqb handedness "Left" then [page_flick_ready (-1)]
  else [].

(** The [for idx, hand_landmarks in enumerate(...)] loop.  The result carries
    the worker, the local [flick_pose_detected] and the emitted signals; the
    branch that fires does not recurse, which is the [break]. *)
Fixpoint flick_loop (self : VideoWorker) (now : float) (flick_pose_detected : bool)
    (hands : list Hand) : VideoWorker * bool * list Signal :=
  match hands with
  | [] => (self, flick_pose_detected, [])
  | hand_landmarks :: rest =>
      if is_current_flick hand_landmarks then
        if flick_guard self now then
          (set_is_flicking (set_last_flick_time self now) true, true,
           flick_emit (label hand_landmarks))
        else flick_loop self now true rest
      else flick_loop self now flick_pose_detected rest
  end.

Definition flick (self : VideoWorker) (now : float) (hands : list Hand)
  : VideoWorker * list Signal :=
  let '(self, flick_pose_detected, out) := flick_loop self now false hands in
  let self :=
    if negb flick_pose_detected && is_flicking self
    then set_is_flicking self false else self in
  (self, out).

(** *** The body of one loop iteration after a successful read *)

Definition process (self : VideoWorker) (c : Capture) : VideoWorker * list Signal :=
  let now := current_time c in
  match multi_hand_landmarks c with
  | hand_landmarks_cursor :: _ =>
      let is_grasping := grasping hand_landmarks_cursor in
      let out1 := [gesture_ready is_grasping] in
      let (self, out2) := track self hand_landmarks_cursor is_grasping in
      let (self, out3) := pinch self hand_landmarks_cursor is_grasping now in
      let (self, out4) := flick self now (multi_hand_landmarks c) in
      (self, out1 ++ out2 ++ out3 ++ out4 ++ [image_ready])
  | [] =>
      (set_is_flicking (set_is_pinching self false) false, [image_ready])
  end.

(** *** The loop and [run] *)

(** What happens around the loop, in order: [cap.read()] returning
    [(False, _)] ([None]) or a frame whose processing observes a [Capture],
    and [stop()] called from the owning side, which clears [running]. *)
Inductive Tick : Type :=
| cap_read (r : option Capture)
| stop_called.

Definition iteration (self : VideoWorker) (r : option Capture) : VideoWorker * list Signal :=
  match r with
  | None => (self, [])
  | Some c => process self c
  end.

(** [while self.running: ...] *)
Fixpoint frame_loop (self : VideoWorker) (sched : list Tick) : VideoWorker * list Signal :=
  match sched with
  | [] => (self, [])
  | stop_called :: rest => frame_loop (set_running self false) rest
  | cap_read r :: rest =>
      if running self then
        let (self, out) := iteration self r in
        let (self, out') := frame_loop self rest in
        (self, out ++ out')
      else (self, [])
  end.

(** [VideoWorker.run]; [opened] is the value of [cap.isOpened()].  The third
    component tells whether the [while] loop was entered. *)
Definition run (self : VideoWorker) (opened : bool) (sched : list Tick)
  : VideoWorker * list Signal * bool :=
  if negb opened then (set_running self false, [], false)
  else let (self, out) := frame_loop self sched in (self, out, true).

(** ** Frame sequences *)

(** The worker after a sequence of successfully read frames. *)
Definition after (self : VideoWorker) (cs : list Capture) : VideoWorker :=
  fold_left (fun s c => fst (process s c)) cs self.

Definition signals (self : VideoWorker) (c : Capture) : list Signal :=
  snd (process self c).

Definition pinch_fired (self : VideoWorker) (c : Capture) : bool :=
  existsb is_return_home (signals self c).

Definition flick_fired (self : VideoWorker) (c : Capture) : bool :=
  existsb is_page_flick (signals self c).

(** Detection of the pinch pose in a frame: a hand is present and the cursor
    hand's pinch distance is below the threshold. *)
Definition pinch_detected (c : Capture) : bool :=
  match multi_hand_landmarks c with
  | hand_landmarks_cursor :: _ => is_current_pinch hand_landmarks_cursor
  | [] => false
  end.

(** Detection of the flick pose in a frame: some hand is below the threshold. *)
Definition flick_detected (c : Capture) : bool :=
  existsb is_current_flick (multi_hand_landmarks c).

(** Every handedness label is one of the two the landmark source produces. *)
Definition labelled (c : Capture) : Prop :=
  Forall (fun h => label h = "Right"%string \/ label h = "Left"%string)
         (multi_hand_landmarks c).

(** Per-frame record of whether a gesture fired, along a frame sequence. *)
Fixpoint fires (fired : VideoWorker -> Capture -> bool) (self : VideoWorker)
    (cs : list Capture) : list bool :=
  match cs with
  | [] => []
  | c :: rest => fired self c :: fires fired (fst (process self c)) rest
  end.

(** The worker after a pinch fired at [T0] and released half a second later. *)
Definition released : VideoWorker :=
  after init [Samples.frame [Samples.pinch_hand "Right"] 0;
              Samples.frame [Samples.open_hand "Right"] 0.5].

(** ** Whole runs *)

Definition is_coords (s : Signal) : bool :=
  match s with coords_ready _ _ => true | _ => false end.

Definition is_gesture (s : Signal) : bool :=
  match s with gesture_ready _ => true | _ => false end.

(** [results.multi_hand_landmarks] is truthy. *)
Definition has_hand (c : Capture) : bool :=
  match multi_hand_landmarks c with
  | [] => false
  | _ :: _ => true
  end.

(** All signals of a sequence of successfully read frames, in emission order. *)
Fixpoint trace (self : VideoWorker) (cs : list Capture) : list Signal :=
  match cs with
  | [] => []
  | c :: rest => signals self c ++ trace (fst (process self c)) rest
  end.

(** The frames of a schedule that are read successfully before the first
    [stop()]. *)
Fixpoint before_stop (sched : list Tick) : list Capture :=
  match sched with
  | [] => []
  | stop_called :: _ => []
  | cap_read None :: rest => before_stop rest
  | cap_read (Some c) :: rest => c :: before_stop rest
  end.

Definition is_stop (t : Tick) : bool :=
  match t with stop_called => true | cap_read _ => false end.

(** The raw point handed to the filter for a cursor hand: the index
    fingertip, lowered by [Y_COMPENSATION_OFFSET] while grasping. *)
Definition raw_point (hand_landmarks_cursor : Hand) : float * float :=
  let index_tip := landmark hand_landmarks_cursor INDEX_FINGER_TIP in
  (px index_tip,
   if grasping hand_landmarks_cursor then py index_tip - Y_COMPENSATION_OFFSET
   else py index_tip).

(** * Properties *)

(** ** The filter *)

Lemma filter_alpha (f : EMAFilter.t) (x y : float) :
  EMAFilter.alpha (fst (EMAFilter.filter f x y)) = EMAFilter.alpha f.
Proof.
  unfold EMAFilter.filter. destruct (EMAFilter.last f) as [[lx ly]|]; reflexivity.
Qed.

Lemma filter_last (f : EMAFilter.t) (x y : float) :
  EMAFilter.last (fst (EMAFilter.filter f x y)) = Some (snd (EMAFilter.filter f x y)).
Proof.
  unfold EMAFilter.filter. destruct (EMAFilter.last f) as [[lx ly]|]; reflexivity.
Qed.

Lemma filter_fresh (f : EMAFilter.t) (x y : float) :
  EMAFilter.last f = None -> snd (EMAFilter.filter f x y) = (x, y).
Proof. intros H. unfold EMAFilter.filter. rewrite H. reflexivity. Qed.

Lemma filter_smooth (f : EMAFilter.t) (x y sx sy : float) :
  EMAFilter.last f = Some (sx, sy) ->
  snd (EMAFilter.filter f x y)
  = (EMAFilter.alpha f * x + (1 - EMAFilter.alpha f) * sx,
     EMAFilter.alpha f * y + (1 - EMAFilter.alpha f) * sy).
Proof. intros H. unfold EMAFilter.filter. rewrite H. reflexivity. Qed.

Lemma outputs_cons (f : EMAFilter.t) (x y : float) (rest : list (float * float)) :
  EMAFilter.outputs f ((x, y) :: rest)
  = snd (EMAFilter.filter f x y) :: EMAFilter.outputs (fst (EMAFilter.filter f x y)) rest.
Proof. simpl. destruct (EMAFilter.filter f x y); reflexivity. Qed.

(** Each output after the first is the smoothing of the matching raw point
    with the output before it, from any filter state. *)
Lemma outputs_step (raw : list (float * float)) :
  forall (f : EMAFilter.t) (k : nat) (x y sx sy : float),
    nth_error raw (S k) = Some (x, y) ->
    nth_error (EMAFilter.outputs f raw) k = Some (sx, sy) ->
    nth_error (EMAFilter.outputs f raw) (S k)
    = Some (EMAFilter.alpha f * x + (1 - EMAFilter.alpha f) * sx,
            EMAFilter.alpha f * y + (1 - EMAFilter.alpha f) * sy).
Proof.
  induction raw as [|[x0 y0] raw IH]; intros f k x y sx sy Hraw Hout.
  - discriminate Hraw.
  - rewrite outputs_cons in *. destruct k as [|k].
    + destruct raw as [|[x1 y1] raw']; [discriminate Hraw|].
      simpl in Hraw, Hout. injection Hraw as -> ->.
      injection Hout as Hout.
      rewrite outputs_cons. simpl.
      rewrite (filter_smooth _ x y sx sy), filter_alpha; [reflexivity|].
      rewrite filter_last, Hout. reflexivity.
    + simpl in Hraw. change (nth_error (?a :: ?l) (S ?n)) with (nth_error l n) in Hout |- *.
      rewrite (IH _ k x y sx sy Hraw Hout), filter_alpha. reflexivity.
Qed.

(** C4: the first output of a fresh filter is its first input; every later
    output is [alpha * raw + (1 - alpha) * previous output] on each axis; and
    with alpha = 0.3 the stream (0.5,0.5), (0.5,0.5), (0.9,0.5) is smoothed
    to (0.5,0.5), (0.5,0.5), (0.62,0.5). *)
Theorem ema_filter_outputs :
  (forall (a : float) (p : float * float) (raw : list (float * float)),
      nth_error (EMAFilter.outputs (EMAFilter.init a) (p :: raw)) 0 = Some p)
  /\ (forall (a : float) (raw : list (float * float)) (k : nat) (x y sx sy : float),
         nth_error raw (S k) = Some (x, y) ->
         nth_error (EMAFilter.outputs (EMAFilter.init a) raw) k = Some (sx, sy) ->
         nth_error (EMAFilter.outputs (EMAFilter.init a) raw) (S k)
         = Some (a * x + (1 - a) * sx, a * y + (1 - a) * sy))
  /\ EMAFilter.outputs (EMAFilter.init 0.3) [(0.5, 0.5); (0.5, 0.5); (0.9, 0.5)]
     = [(0.5, 0.5); (0.5, 0.5); (0.62, 0.5)].
Proof.
  split; [|split].
  - intros a [x y] raw. rewrite outputs_cons. reflexivity.
  - intros a raw k x y sx sy Hraw Hout.
    exact (outputs_step raw (EMAFilter.init a) k x y sx sy Hraw Hout).
  - vm_compute. reflexivity.
Qed.

Lemma ema_filter_outputs_witness :
  nth_error (EMAFilter.outputs (EMAFilter.init 0.3) [(0.5, 0.5); (0.5, 0.5); (0.9, 0.5)]) 2
  = Some (0.3 * 0.9 + (1 - 0.3) * 0.5, 0.3 * 0.5 + (1 - 0.3) * 0.5).
Proof.
  apply (proj1 (proj2 ema_filter_outputs) 0.3 [(0.5, 0.5); (0.5, 0.5); (0.9, 0.5)] 1%nat);
    reflexivity.
Defined.

(** ** The stages of one frame *)

Lemma track_spec (self : VideoWorker) (h : Hand) (g : bool) :
  exists f x y,
    track self h g = (set_filter_index self f, [coords_ready x y]).
Proof.
  unfold track.
  destruct (EMAFilter.filter _ _ _) as [f [x y]]. exists f, x, y. reflexivity.
Qed.

Lemma pinch_spec (self : VideoWorker) (h : Hand) (g : bool) (now : float) :
  let fire := is_current_pinch h && pinch_guard self g now in
  let self' := fst (pinch self h g now) in
  snd (pinch self h g now) = (if fire then [return_home_ready] else [])
  /\ is_pinching self' = is_current_pinch h && (pinch_guard self g now || is_pinching self)
  /\ last_pinch_time self' = (if fire then now else last_pinch_time self)
  /\ running self' = running self
  /\ filter_index self' = filter_index self
  /\ last_flick_time self' = last_flick_time self
  /\ is_flicking self' = is_flicking self.
Proof.
  unfold pinch.
  destruct (is_current_pinch h); [destruct (pinch_guard self g now)|];
    destruct self as [r f lp ip lf fl]; destruct ip; cbn; repeat split; reflexivity.
Qed.

Lemma flick_loop_find (hands : list Hand) :
  forall (self : VideoWorker) (now : float) (flag : bool),
    flick_loop self now flag hands
    = match find is_current_flick hands with
      | Some h =>
          if flick_guard self now
          then (set_is_flicking (set_last_flick_time self now) true, true,
                flick_emit (label h))
          else (self, true, [])
      | None => (self, flag, [])
      end.
Proof.
  induction hands as [|h rest IH]; intros self now flag; simpl.
  - reflexivity.
  - destruct (is_current_flick h).
    + destruct (flick_guard self now) eqn:G; [reflexivity|].
      rewrite IH, G. destruct (find is_current_flick rest); reflexivity.
    + apply IH.
Qed.

Lemma find_existsb {A : Type} (p : A -> bool) (l : list A) :
  existsb p l = match find p l with Some _ => true | None => false end.
Proof.
  induction l as [|a l IH]; simpl; [reflexivity|].
  destruct (p a); [reflexivity|exact IH].
Qed.

Lemma flick_spec (self : VideoWorker) (now : float) (hands : list Hand) :
  let self' := fst (flick self now hands) in
  snd (flick self now hands)
  = match find is_current_flick hands with
    | Some h => if flick_guard self now then flick_emit (label h) else []
    | None => []
    end
  /\ is_flicking self'
     = existsb is_current_flick hands && (flick_guard self now || is_flicking self)
  /\ last_flick_time self'
     = (if existsb is_current_flick hands && flick_guard self now
        then now else last_flick_time self)
  /\ running self' = running self
  /\ filter_index self' = filter_index self
  /\ last_pinch_time self' = last_pinch_time self
  /\ is_pinching self' = is_pinching self.
Proof.
  unfold flick. rewrite flick_loop_find, find_existsb.
  destruct (find is_current_flick hands) as [h|];
    [destruct (flick_guard self now)|];
    destruct self as [r f lp ip lf fl]; destruct fl; cbn; repeat split; reflexivity.
Qed.

Lemma flick_emit_flicks (handedness : string) :
  forallb is_page_flick (flick_emit handedness) = true.
Proof.
  unfold flick_emit.
  destruct (String.eqb handedness "Right"); [reflexivity|].
  destruct (String.eqb handedness "Left"); reflexivity.
Qed.

Lemma flick_emit_labelled (handedness : string) :
  handedness = "Right"%string \/ handedness = "Left"%string ->
  existsb is_page_flick (flick_emit handedness) = true.
Proof. intros [-> | ->]; reflexivity. Qed.

(** One frame with a hand present, stage by stage. *)
Lemma process_hands (self : VideoWorker) (c : Capture) (h : Hand) (rest : list Hand) :
  multi_hand_landmarks c = h :: rest ->
  let g := grasping h in
  let now := current_time c in
  let s1 := fst (track self h g) in
  let s2 := fst (pinch s1 h g now) in
  process self c
  = (fst (flick s2 now (h :: rest)),
     gesture_ready g :: snd (track self h g) ++ snd (pinch s1 h g now)
       ++ snd (flick s2 now (h :: rest)) ++ [image_ready]).
Proof.
  intros H. unfold process. rewrite H. cbv zeta.
  destruct (track self h (grasping h)) as [s1 o1]. cbn [fst snd].
  destruct (pinch s1 h (grasping h) (current_time c)) as [s2 o2]. cbn [fst snd].
  destruct (flick s2 (current_time c) (h :: rest)) as [s3 o3]. reflexivity.
Qed.

(** The signals of a frame with a hand present. *)
Lemma signals_hands (self : VideoWorker) (c : Capture) (h : Hand) (rest : list Hand) :
  multi_hand_landmarks c = h :: rest ->
  exists x y,
    signals self c
    = gesture_ready (grasping h) :: coords_ready x y
      :: (if is_current_pinch h && pinch_guard self (grasping h) (current_time c)
          then [return_home_ready] else [])
      ++ match find is_current_flick (h :: rest) with
         | Some h' => if flick_guard self (current_time c)
                      then flick_emit (label h') else []
         | None => []
         end
      ++ [image_ready].
Proof.
  intros H. unfold signals. rewrite (process_hands self c h rest H). cbn [snd].
  destruct (track_spec self h (grasping h)) as (f & x & y & Ht). rewrite Ht. cbn [fst snd].
  exists x, y.
  destruct (pinch_spec (set_filter_index self f) h (grasping h) (current_time c))
    as (Hp & _ & _ & _ & _ & Hlf & Hfl).
  rewrite Hp.
  destruct (flick_spec (fst (pinch (set_filter_index self f) h (grasping h) (current_time c)))
              (current_time c) (h :: rest)) as (Hf & _).
  rewrite Hf.
  unfold flick_guard at 1. rewrite Hlf, Hfl. reflexivity.
Qed.

(** The worker after a frame with a hand present. *)
Lemma worker_hands (self : VideoWorker) (c : Capture) (h : Hand) (rest : list Hand) :
  multi_hand_landmarks c = h :: rest ->
  let self' := fst (process self c) in
  let now := current_time c in
  is_pinching self'
  = is_current_pinch h && (pinch_guard self (grasping h) now || is_pinching self)
  /\ last_pinch_time self'
     = (if is_current_pinch h && pinch_guard self (grasping h) now
        then now else last_pinch_time self)
  /\ is_flicking self'
     = existsb is_current_flick (h :: rest) && (flick_guard self now || is_flicking self)
  /\ last_flick_time self'
     = (if existsb is_current_flick (h :: rest) && flick_guard self now
        then now else last_flick_time self)
  /\ running self' = running self.
Proof.
  intros H. cbv zeta. rewrite (process_hands self c h rest H). cbn [fst].
  destruct (track_spec self h (grasping h)) as (f & x & y & Ht). rewrite Ht. cbn [fst].
  destruct (pinch_spec (set_filter_index self f) h (grasping h) (current_time c))
    as (_ & Hip & Hlp & Hr & _ & Hlf & Hfl).
  destruct (flick_spec (fst (pinch (set_filter_index self f) h (grasping h) (current_time c)))
              (current_time c) (h :: rest)) as (_ & Hfl' & Hlf' & Hr' & _ & Hlp' & Hip').
  cbv zeta in *.
  rewrite Hip', Hlp', Hfl', Hlf', Hr', Hip, Hlp, Hr.
  unfold flick_guard. rewrite Hlf, Hfl.
  repeat split; reflexivity.
Qed.

Lemma flick_emit_no_home (handedness : string) :
  existsb is_return_home (flick_emit handedness) = false.
Proof.
  unfold flick_emit.
  destruct (String.eqb handedness "Right"); [reflexivity|].
  destruct (String.eqb handedness "Left"); reflexivity.
Qed.

(** When the pinch signal is emitted in a frame. *)
Lemma pinch_fired_eq (self : VideoWorker) (c : Capture) :
  pinch_fired self c
  = match multi_hand_landmarks c with
    | h :: _ => is_current_pinch h && pinch_guard self (grasping h) (current_time c)
    | [] => false
    end.
Proof.
  unfold pinch_fired. destruct (multi_hand_landmarks c) as [|h rest] eqn:H.
  - unfold signals, process. rewrite H. reflexivity.
  - destruct (signals_hands self c h rest H) as (x & y & ->).
    cbn [existsb is_return_home orb]. rewrite !existsb_app.
    assert (F : existsb is_return_home
                  match find is_current_flick (h :: rest) with
                  | Some h' => if flick_guard self (current_time c)
                               then flick_emit (label h') else []
                  | None => []
                  end = false).
    { destruct (find is_current_flick (h :: rest)); [|reflexivity].
      destruct (flick_guard self (current_time c)); [apply flick_emit_no_home|reflexivity]. }
    rewrite F.
    destruct (is_current_pinch h && pinch_guard self (grasping h) (current_time c));
      reflexivity.
Qed.

(** When a flick signal is emitted in a frame. *)
Lemma flick_fired_eq (self : VideoWorker) (c : Capture) :
  flick_fired self c
  = match find is_current_flick (multi_hand_landmarks c) with
    | Some h => flick_guard self (current_time c)
                && existsb is_page_flick (flick_emit (label h))
    | None => false
    end.
Proof.
  unfold flick_fired. destruct (multi_hand_landmarks c) as [|h rest] eqn:H.
  - unfold signals, process. rewrite H. reflexivity.
  - destruct (signals_hands self c h rest H) as (x & y & ->).
    cbn [existsb is_page_flick orb]. rewrite !existsb_app.
    replace (existsb is_page_flick
               (if is_current_pinch h && pinch_guard self (grasping h) (current_time c)
                then [return_home_ready] else [])) with false
      by (destruct (is_current_pinch h && pinch_guard self (grasping h) (current_time c));
          reflexivity).
    cbn [orb existsb is_page_flick]. rewrite orb_false_r.
    destruct (find is_current_flick (h :: rest)); [|reflexivity].
    destruct (flick_guard self (current_time c)); reflexivity.
Qed.

(** The flick signals of a frame. *)
Lemma flick_signals (self : VideoWorker) (c : Capture) :
  List.filter is_page_flick (signals self c)
  = match find is_current_flick (multi_hand_landmarks c) with
    | Some h => if flick_guard self (current_time c) then flick_emit (label h) else []
    | None => []
    end.
Proof.
  destruct (multi_hand_landmarks c) as [|h rest] eqn:H.
  - unfold signals, process. rewrite H. reflexivity.
  - destruct (signals_hands self c h rest H) as (x & y & ->).
    cbn [List.filter is_page_flick]. rewrite !filter_app.
    replace (List.filter is_page_flick
               (if is_current_pinch h && pinch_guard self (grasping h) (current_time c)
                then [return_home_ready] else [])) with (@nil Signal)
      by (destruct (is_current_pinch h && pinch_guard self (grasping h) (current_time c));
          reflexivity).
    cbn [app List.filter is_page_flick]. rewrite app_nil_r.
    destruct (find is_current_flick (h :: rest)) as [h'|]; [|reflexivity].
    destruct (flick_guard self (current_time c)); [|reflexivity].
    apply forallb_filter_id, flick_emit_flicks.
Qed.

(** The gesture state after any frame. *)
Lemma worker_after_frame (self : VideoWorker) (c : Capture) :
  let self' := fst (process self c) in
  let now := current_time c in
  is_pinching self' = pinch_detected c && (pinch_fired self c || is_pinching self)
  /\ last_pinch_time self' = (if pinch_fired self c then now else last_pinch_time self)
  /\ is_flicking self'
     = flick_detected c && (flick_detected c && flick_guard self now || is_flicking self)
  /\ last_flick_time self'
     = (if flick_detected c && flick_guard self now then now else last_flick_time self).
Proof.
  cbv zeta. rewrite pinch_fired_eq. unfold pinch_detected, flick_detected.
  destruct (multi_hand_landmarks c) as [|h rest] eqn:H.
  - unfold process. rewrite H. cbn. repeat split; reflexivity.
  - destruct (worker_hands self c h rest H) as (Hip & Hlp & Hfl & Hlf & _).
    rewrite Hip, Hlp, Hfl, Hlf. repeat split.
    + destruct (is_current_pinch h), (pinch_guard self (grasping h) (current_time c));
        reflexivity.
    + destruct (existsb is_current_flick (h :: rest)), (flick_guard self (current_time c));
        reflexivity.
Qed.

(** ** Frame sequences *)

Lemma after_cons (self : VideoWorker) (c : Capture) (cs : list Capture) :
  after self (c :: cs) = after (fst (process self c)) cs.
Proof. reflexivity. Qed.

Lemma in_return_home (l : list Signal) :
  existsb is_return_home l = true <-> In return_home_ready l.
Proof.
  rewrite existsb_exists. split.
  - intros (s & Hin & Hs). destruct s; try discriminate Hs. exact Hin.
  - intros Hin. exists return_home_ready. split; [exact Hin|reflexivity].
Qed.

(** Both edge-triggered gestures follow one scheme: an Active flag that is
    kept while the pose is detected and set by a trigger, and a time stamp
    written by the trigger; the trigger needs the pose, an unset flag and the
    cooldown exceeded since the stamp. *)
Section Debounce.

Variable active : VideoWorker -> bool.
Variable last : VideoWorker -> float.
Variable det : Capture -> bool.
Variable trig : VideoWorker -> Capture -> bool.
Variable cooldown : float.

Hypothesis active_step : forall s c,
    active (fst (process s c)) = det c && (trig s c || active s).
Hypothesis last_step : forall s c,
    last (fst (process s c)) = if trig s c then current_time c else last s.
Hypothesis trig_guard : forall s c,
    trig s c = true ->
    det c = true /\ active s = false /\ (cooldown <? current_time c - last s) = true.

Lemma active_blocks (s : VideoWorker) (c : Capture) :
  active s = true -> trig s c = false.
Proof.
  intros Ha. destruct (trig s c) eqn:Ht; [|reflexivity].
  destruct (trig_guard s c Ht) as (_ & Hi & _). congruence.
Qed.

(** While the pose stays detected an Active machine stays Active and silent. *)
Lemma held (mid : list Capture) :
  forall s, active s = true ->
            Forall (fun m => det m = true) mid ->
            active (after s mid) = true /\ ~ In true (fires trig s mid).
Proof.
  induction mid as [|m mid IH]; intros s Ha Hd.
  - split; [exact Ha|intros []].
  - inversion Hd as [|? ? Hm Hmid]; subst.
    assert (Ha' : active (fst (process s m)) = true).
    { rewrite active_step, Hm, Ha, orb_true_r. reflexivity. }
    destruct (IH _ Ha' Hmid) as [Hact Hq].
    rewrite after_cons. split; [exact Hact|].
    simpl. rewrite (active_blocks s m Ha). intros [H|H]; [discriminate H|exact (Hq H)].
Qed.

(** Frames without a trigger leave the time stamp alone. *)
Lemma quiet_last (mid : list Capture) :
  forall s, ~ In true (fires trig s mid) -> last (after s mid) = last s.
Proof.
  induction mid as [|m mid IH]; intros s Hq; [reflexivity|].
  simpl in Hq. rewrite after_cons, IH by tauto.
  rewrite last_step. destruct (trig s m); [exfalso; apply Hq; left; reflexivity|reflexivity].
Qed.

Lemma no_refire (s : VideoWorker) (c : Capture) (mid : list Capture) (c' : Capture) :
  trig s c = true ->
  Forall (fun m => det m = true) mid ->
  ~ In true (fires trig (fst (process s c)) mid)
  /\ trig (after (fst (process s c)) mid) c' = false.
Proof.
  intros Ht Hd. destruct (trig_guard s c Ht) as (Hc & _ & _).
  assert (Ha : active (fst (process s c)) = true).
  { rewrite active_step, Hc, Ht. reflexivity. }
  destruct (held mid _ Ha Hd) as [Hact Hq].
  split; [exact Hq|apply active_blocks, Hact].
Qed.

Lemma spacing (s : VideoWorker) (c : Capture) (mid : list Capture) (c' : Capture) :
  trig s c = true ->
  ~ In true (fires trig (fst (process s c)) mid) ->
  trig (after (fst (process s c)) mid) c' = true ->
  (cooldown <? current_time c' - current_time c) = true.
Proof.
  intros Ht Hq Ht'. destruct (trig_guard _ _ Ht') as (_ & _ & Hcd).
  rewrite (quiet_last mid _ Hq), last_step, Ht in Hcd. exact Hcd.
Qed.

End Debounce.

(** The flick state machine triggers when some hand is in the pose and the
    guard passes; a signal goes out when, in addition, the label of the
    triggering hand is one of the two known ones. *)
Lemma flick_fired_trigger (self : VideoWorker) (c : Capture) :
  flick_fired self c = true ->
  flick_detected c && flick_guard self (current_time c) = true.
Proof.
  rewrite flick_fired_eq. unfold flick_detected. rewrite find_existsb.
  destruct (find is_current_flick (multi_hand_landmarks c)); [|discriminate].
  destruct (flick_guard self (current_time c)); [reflexivity|discriminate].
Qed.

Lemma flick_fired_labelled (self : VideoWorker) (c : Capture) :
  labelled c ->
  flick_fired self c = flick_detected c && flick_guard self (current_time c).
Proof.
  intros L. rewrite flick_fired_eq. unfold flick_detected. rewrite find_existsb.
  destruct (find is_current_flick (multi_hand_landmarks c)) as [h|] eqn:F; [|reflexivity].
  apply find_some in F. destruct F as [Hin _].
  unfold labelled in L. rewrite Forall_forall in L.
  rewrite (flick_emit_labelled _ (L h Hin)), andb_true_r. reflexivity.
Qed.

Lemma fires_flick_labelled (mid : list Capture) :
  forall self,
    Forall labelled mid ->
    fires flick_fired self mid
    = fires (fun s c => flick_detected c && flick_guard s (current_time c)) self mid.
Proof.
  induction mid as [|m mid IH]; intros self L; [reflexivity|].
  inversion L as [|? ? Lm Lmid]; subst. simpl.
  rewrite (flick_fired_labelled self m Lm), (IH _ Lmid). reflexivity.
Qed.

Lemma fires_flick_quiet (mid : list Capture) :
  forall self,
    ~ In true (fires (fun s c => flick_detected c && flick_guard s (current_time c))
                 self mid) ->
    ~ In true (fires flick_fired self mid).
Proof.
  induction mid as [|m mid IH]; intros self Hq; [intros []|].
  simpl in *. intros [Hm|Hm].
  - apply Hq. left. apply flick_fired_trigger in Hm. exact Hm.
  - apply (IH _ (fun H => Hq (or_intror H)) Hm).
Qed.

Lemma pinch_active_step (s : VideoWorker) (c : Capture) :
  is_pinching (fst (process s c)) = pinch_detected c && (pinch_fired s c || is_pinching s).
Proof. apply (worker_after_frame s c). Qed.

Lemma pinch_last_step (s : VideoWorker) (c : Capture) :
  last_pinch_time (fst (process s c))
  = if pinch_fired s c then current_time c else last_pinch_time s.
Proof. apply (worker_after_frame s c). Qed.

Lemma pinch_trig_guard (s : VideoWorker) (c : Capture) :
  pinch_fired s c = true ->
  pinch_detected c = true /\ is_pinching s = false
  /\ (PINCH_COOLDOWN <? current_time c - last_pinch_time s) = true.
Proof.
  rewrite pinch_fired_eq. unfold pinch_detected, pinch_guard.
  destruct (multi_hand_landmarks c) as [|h rest]; [discriminate|].
  destruct (is_current_pinch h), (grasping h), (is_pinching s); cbn; try discriminate.
  intros ->. repeat split; reflexivity.
Qed.

Lemma flick_active_step (s : VideoWorker) (c : Capture) :
  is_flicking (fst (process s c))
  = flick_detected c
    && (flick_detected c && flick_guard s (current_time c) || is_flicking s).
Proof. apply (worker_after_frame s c). Qed.

Lemma flick_last_step (s : VideoWorker) (c : Capture) :
  last_flick_time (fst (process s c))
  = if flick_detected c && flick_guard s (current_time c)
    then current_time c else last_flick_time s.
Proof. apply (worker_after_frame s c). Qed.

Lemma flick_trig_guard (s : VideoWorker) (c : Capture) :
  flick_detected c && flick_guard s (current_time c) = true ->
  flick_detected c = true /\ is_flicking s = false
  /\ (FLICK_COOLDOWN <? current_time c - last_flick_time s) = true.
Proof.
  unfold flick_guard.
  destruct (flick_detected c), (is_flicking s); cbn; try discriminate.
  intros ->. repeat split; reflexivity.
Qed.

(** ** Pinch-Confirm *)

(** C1 (as amended): on a frame with a hand present the Pinch-Confirm signal
    is emitted, and the classifier goes from Idle to Active, exactly when the
    thumb-tip-to-middle-fingertip distance is below PINCH_THRESHOLD, the
    cursor hand is not grasping, the classifier is Idle, and the time since
    the last fire is strictly greater than PINCH_COOLDOWN; the fire records
    the frame's time as the time of the last fire. *)
Theorem pinch_confirm_fires_iff
    (self : VideoWorker) (c : Capture) (h : Hand) (rest : list Hand) :
  multi_hand_landmarks c = h :: rest ->
  let qualifies :=
    (pinch_distance h <? PINCH_THRESHOLD) = true
    /\ grasping h = false
    /\ is_pinching self = false
    /\ (PINCH_COOLDOWN <? current_time c - last_pinch_time self) = true in
  (In return_home_ready (signals self c) <-> qualifies)
  /\ (is_pinching self = false /\ is_pinching (fst (process self c)) = true <-> qualifies)
  /\ (qualifies -> last_pinch_time (fst (process self c)) = current_time c).
Proof.
  intros H qualifies.
  assert (Q : pinch_fired self c = true <-> qualifies).
  { rewrite pinch_fired_eq, H. unfold qualifies, pinch_guard, is_current_pinch.
    destruct (pinch_distance h <? PINCH_THRESHOLD), (grasping h), (is_pinching self),
      (PINCH_COOLDOWN <? current_time c - last_pinch_time self); cbn;
      intuition discriminate. }
  split; [|split].
  - rewrite <- Q. unfold pinch_fired. symmetry. apply in_return_home.
  - rewrite <- Q, pinch_active_step. unfold pinch_detected. rewrite H. split.
    + intros [Hi Ha]. rewrite Hi, orb_false_r in Ha.
      apply andb_true_iff in Ha. tauto.
    + intros Hf. destruct (pinch_trig_guard self c Hf) as (Hd & Hi & _).
      unfold pinch_detected in Hd. rewrite H in Hd. rewrite Hd, Hf. split; [exact Hi|reflexivity].
  - intros Hq. apply Q in Hq. rewrite pinch_last_step, Hq. reflexivity.
Qed.

(** C3: on a frame whose cursor hand is classified as grasping, no
    Pinch-Confirm signal is emitted, whatever the pinch distance, the state
    of the classifier and the time. *)
Theorem no_pinch_confirm_while_grasping
    (self : VideoWorker) (c : Capture) (h : Hand) (rest : list Hand) :
  multi_hand_landmarks c = h :: rest ->
  grasping h = true ->
  In (gesture_ready true) (signals self c)
  /\ ~ In return_home_ready (signals self c).
Proof.
  intros H G. split.
  - destruct (signals_hands self c h rest H) as (x & y & ->). rewrite G. left. reflexivity.
  - intros Hin. apply in_return_home in Hin.
    change (pinch_fired self c = true) in Hin.
    rewrite pinch_fired_eq, H in Hin. unfold pinch_guard in Hin. rewrite G in Hin.
    cbn in Hin. rewrite andb_false_r in Hin. discriminate Hin.
Qed.

(** ** Hand loss *)

(** C2 (as amended): a frame without a hand forces both the Pinch and the
    Flick machine to Idle and emits only the image; on the next frame the
    pinch signal is emitted exactly when the cursor hand's pinch distance
    qualifies, it is not grasping and the pinch cooldown since the last fire
    is exceeded, and (labels being Right or Left) a flick signal is emitted
    exactly when some hand's flick distance qualifies and the flick cooldown
    since the last fire is exceeded: hand loss clears the Active flags and
    leaves the time stamps of the last fires in place. *)
Theorem hand_loss_resets_to_idle (self : VideoWorker) (c c' : Capture) :
  multi_hand_landmarks c = [] ->
  let self' := fst (process self c) in
  is_pinching self' = false
  /\ is_flicking self' = false
  /\ signals self c = [image_ready]
  /\ pinch_fired self' c'
     = match multi_hand_landmarks c' with
       | h :: _ => is_current_pinch h && negb (grasping h)
                   && (PINCH_COOLDOWN <? current_time c' - last_pinch_time self)
       | [] => false
       end
  /\ (labelled c' ->
      flick_fired self' c'
      = flick_detected c' && (FLICK_COOLDOWN <? current_time c' - last_flick_time self)).
Proof.
  intros H self'.
  assert (E : self' = set_is_flicking (set_is_pinching self false) false).
  { unfold self', process. rewrite H. reflexivity. }
  repeat split.
  - rewrite E. reflexivity.
  - rewrite E. reflexivity.
  - unfold signals, process. rewrite H. reflexivity.
  - rewrite pinch_fired_eq, E. destruct (multi_hand_landmarks c') as [|h rest]; [reflexivity|].
    unfold pinch_guard. cbn. rewrite andb_true_r, andb_assoc. reflexivity.
  - intros L. rewrite (flick_fired_labelled _ _ L), E. reflexivity.
Qed.

Lemma edge_triggered_flick_spacing
    (self : VideoWorker) (c : Capture) (mid : list Capture) (c' : Capture) :
  flick_fired self c = true ->
  Forall labelled mid ->
  ~ In true (fires flick_fired (fst (process self c)) mid) ->
  flick_fired (after (fst (process self c)) mid) c' = true ->
  (FLICK_COOLDOWN <? current_time c' - current_time c) = true.
Proof.
  intros Hf L Hq Hf'.
  apply flick_fired_trigger in Hf. apply flick_fired_trigger in Hf'.
  rewrite (fires_flick_labelled mid _ L) in Hq.
  exact (spacing is_flicking last_flick_time flick_detected
           (fun s m => flick_detected m && flick_guard s (current_time m))
           FLICK_COOLDOWN flick_last_step flick_trig_guard self c mid c' Hf Hq Hf').
Qed.

(** ** Grasp *)


(** ** Edge-triggered events *)

(** From Idle, frames on which the trigger does not go off leave the
    machine Idle and its time stamp where it was. *)
Section Idle.

Variable active : VideoWorker -> bool.
Variable last : VideoWorker -> float.
Variable det : Capture -> bool.
Variable trig : VideoWorker -> Capture -> bool.

Hypothesis active_step : forall s c,
    active (fst (process s c)) = det c && (trig s c || active s).
Hypothesis last_step : forall s c,
    last (fst (process s c)) = if trig s c then current_time c else last s.

Lemma idle_stays (mid : list Capture) :
  forall s,
    active s = false ->
    ~ In true (fires trig s mid) ->
    active (after s mid) = false /\ last (after s mid) = last s.
Proof.
  induction mid as [|m mid IH]; intros s Ha Hq; [split; [exact Ha|reflexivity]|].
  cbn [fires] in Hq. rewrite after_cons.
  destruct (trig s m) eqn:Ht; [exfalso; apply Hq; left; reflexivity|].
  assert (Ha' : active (fst (process s m)) = false).
  { rewrite active_step, Ht, Ha. apply andb_false_r. }
  destruct (IH _ Ha' (fun H => Hq (or_intror H))) as [Hact Hlast].
  split; [exact Hact|]. rewrite Hlast, last_step, Ht. reflexivity.
Qed.

End Idle.

(** C6 (as amended).  (1) After a frame on which the Pinch-Confirm (resp.
    Flick) signal is emitted: the pose was detected on that frame; as long as
    the pose stays detected on the following frames the signal is not emitted
    again; and the next emission of the same signal comes at a time that
    exceeds the time of this one by more than the gesture's cooldown (for
    Flick, the labels in between being Right or Left).  (2) The emission need
    not fall on the first frame of a detection: from an Idle classifier,
    frames on which the signal is not emitted (the pose absent, or present
    but blocked by the cooldown or, for Pinch-Confirm, by a grasp) leave the
    classifier Idle and its last-fire time unchanged, so that on the next
    frame the signal is emitted exactly when the pose is detected, the
    cooldown since that last fire is exceeded and (Pinch-Confirm) the cursor
    hand is not grasping. *)
Theorem edge_triggered_events
    (self : VideoWorker) (c : Capture) (mid : list Capture) (c' : Capture) :
  let s1 := fst (process self c) in
  (pinch_fired self c = true ->
   pinch_detected c = true
   /\ (Forall (fun m => pinch_detected m = true) mid ->
       ~ In true (fires pinch_fired s1 mid) /\ pinch_fired (after s1 mid) c' = false)
   /\ (~ In true (fires pinch_fired s1 mid) ->
       pinch_fired (after s1 mid) c' = true ->
       (PINCH_COOLDOWN <? current_time c' - current_time c) = true))
  /\ (flick_fired self c = true ->
      flick_detected c = true
      /\ (Forall (fun m => flick_detected m = true) mid ->
          ~ In true (fires flick_fired s1 mid) /\ flick_fired (after s1 mid) c' = false)
      /\ (Forall labelled mid ->
          ~ In true (fires flick_fired s1 mid) ->
          flick_fired (after s1 mid) c' = true ->
          (FLICK_COOLDOWN <? current_time c' - current_time c) = true))
  /\ (is_pinching self = false ->
      ~ In true (fires pinch_fired self mid) ->
      is_pinching (after self mid) = false
      /\ last_pinch_time (after self mid) = last_pinch_time self
      /\ pinch_fired (after self mid) c'
         = match multi_hand_landmarks c' with
           | h :: _ => is_current_pinch h && negb (grasping h)
                       && (PINCH_COOLDOWN <? current_time c' - last_pinch_time self)
           | [] => false
           end)
  /\ (is_flicking self = false ->
      Forall labelled mid ->
      labelled c' ->
      ~ In true (fires flick_fired self mid) ->
      is_flicking (after self mid) = false
      /\ last_flick_time (after self mid) = last_flick_time self
      /\ flick_fired (after self mid) c'
         = flick_detected c'
           && (FLICK_COOLDOWN <? current_time c' - last_flick_time self)).
Proof.
  intros s1. split; [|split; [|split]].
  - intros Hf. split; [apply (pinch_trig_guard self c Hf)|]. split.
    + intros Hd.
      exact (no_refire is_pinching last_pinch_time pinch_detected pinch_fired PINCH_COOLDOWN
               pinch_active_step pinch_trig_guard self c mid c' Hf Hd).
    + intros Hq Hf'.
      exact (spacing is_pinching last_pinch_time pinch_detected pinch_fired PINCH_COOLDOWN
               pinch_last_step pinch_trig_guard self c mid c' Hf Hq Hf').
  - intros Hfired. pose proof (flick_fired_trigger self c Hfired) as Hf.
    split; [apply (flick_trig_guard self c Hf)|]. split.
    + intros Hd.
      destruct (no_refire is_flicking last_flick_time flick_detected
                  (fun s m => flick_detected m && flick_guard s (current_time m))
                  FLICK_COOLDOWN flick_active_step flick_trig_guard self c mid c' Hf Hd)
        as [Hq Hn].
      split.
      * apply fires_flick_quiet, Hq.
      * destruct (flick_fired (after s1 mid) c') eqn:Hf'; [|reflexivity].
        apply flick_fired_trigger in Hf'. fold s1 in Hn. congruence.
    + intros L Hq Hf'.
      exact (edge_triggered_flick_spacing self c mid c' Hfired L Hq Hf').
  - intros Hi Hq.
    destruct (idle_stays is_pinching last_pinch_time pinch_detected pinch_fired
                pinch_active_step pinch_last_step mid self Hi Hq) as [Hact Hlast].
    split; [exact Hact|]. split; [exact Hlast|].
    rewrite pinch_fired_eq. destruct (multi_hand_landmarks c') as [|h rest]; [reflexivity|].
    unfold pinch_guard. rewrite Hact, Hlast. cbn [negb].
    rewrite andb_true_r, andb_assoc. reflexivity.
  - intros Hi L L' Hq. rewrite (fires_flick_labelled mid self L) in Hq.
    destruct (idle_stays is_flicking last_flick_time flick_detected
                (fun s m => flick_detected m && flick_guard s (current_time m))
                flick_active_step flick_last_step mid self Hi Hq) as [Hact Hlast].
    split; [exact Hact|]. split; [exact Hlast|].
    rewrite (flick_fired_labelled _ _ L'). unfold flick_guard. rewrite Hact, Hlast.
    reflexivity.
Qed.

(** ** Flick *)

Lemma find_first {A : Type} (p : A -> bool) (pre : list A) (a : A) (post : list A) :
  Forall (fun b => p b = false) pre ->
  p a = true ->
  find p (pre ++ a :: post) = Some a.
Proof.
  intros Hpre Ha. induction Hpre as [|b pre Hb _ IH]; simpl.
  - rewrite Ha. reflexivity.
  - rewrite Hb. exact IH.
Qed.

(** C7: the Flick classifier has one Active flag and one time stamp for all
    hands.  (1) A frame emits at most one flick signal.  (2) The hands after
    the first one whose flick distance qualifies have no effect on the
    outcome of the frame's flick stage.  (3) After a flick signal, the next
    flick signal (from whichever hand; labels in between being Right or
    Left) comes at a time exceeding the first one's by more than
    FLICK_COOLDOWN.  (4) After a flick signal, the next frame emits none
    while any hand is in the pose. *)
Theorem flick_shared_state :
  (forall self c, (List.length (List.filter is_page_flick (signals self c)) <= 1)%nat)
  /\ (forall self now pre h post,
         Forall (fun p => is_current_flick p = false) pre ->
         is_current_flick h = true ->
         flick self now (pre ++ h :: post) = flick self now [h])
  /\ (forall self c mid c',
         flick_fired self c = true ->
         Forall labelled mid ->
         ~ In true (fires flick_fired (fst (process self c)) mid) ->
         flick_fired (after (fst (process self c)) mid) c' = true ->
         (FLICK_COOLDOWN <? current_time c' - current_time c) = true)
  /\ (forall self c c',
         flick_fired self c = true ->
         flick_detected c' = true ->
         flick_fired (fst (process self c)) c' = false).
Proof.
  split; [|split; [|split]].
  - intros self c. rewrite flick_signals.
    destruct (find is_current_flick (multi_hand_landmarks c)) as [h|]; [|simpl; lia].
    destruct (flick_guard self (current_time c)); [|simpl; lia].
    unfold flick_emit.
    destruct (String.eqb (label h) "Right"); [simpl; lia|].
    destruct (String.eqb (label h) "Left"); simpl; lia.
  - intros self now pre h post Hpre Hh. unfold flick.
    rewrite !flick_loop_find, (find_first _ pre h post Hpre Hh).
    simpl. rewrite Hh. reflexivity.
  - intros self c mid c' Hf L Hq Hf'.
    apply (edge_triggered_flick_spacing self c mid c' Hf L Hq Hf').
  - intros self c c' Hf Hd.
    apply flick_fired_trigger in Hf.
    destruct (no_refire is_flicking last_flick_time flick_detected
                (fun s m => flick_detected m && flick_guard s (current_time m))
                FLICK_COOLDOWN flick_active_step flick_trig_guard self c [] c' Hf
                (Forall_nil _)) as [_ Hn].
    destruct (flick_fired (fst (process self c)) c') eqn:Hf'; [|reflexivity].
    apply flick_fired_trigger in Hf'. unfold after in Hn. simpl in Hn. congruence.
Qed.

(** C8: on a frame where the Flick machine is Idle and the cooldown is
    exceeded, the first hand (in iteration order) whose thumb-tip-to-pinky-tip
    distance is below FLICK_THRESHOLD decides the signal: exactly one flick
    signal, with direction +1 if that hand is labelled Right and -1 if it is
    labelled Left.  Conversely every flick signal of a frame arises this way. *)
Theorem flick_direction
    (self : VideoWorker) (c : Capture) (pre : list Hand) (h : Hand) (post : list Hand) :
  multi_hand_landmarks c = pre ++ h :: post ->
  Forall (fun p => (flick_distance p <? FLICK_THRESHOLD) = false) pre ->
  (flick_distance h <? FLICK_THRESHOLD) = true ->
  let elapsed :=
    is_flicking self = false
    /\ (FLICK_COOLDOWN <? current_time c - last_flick_time self) = true in
  (elapsed ->
   (label h = "Right"%string ->
    List.filter is_page_flick (signals self c) = [page_flick_ready 1])
   /\ (label h = "Left"%string ->
       List.filter is_page_flick (signals self c) = [page_flick_ready (-1)]))
  /\ (forall d, In (page_flick_ready d) (signals self c) ->
                elapsed
                /\ (label h = "Right"%string /\ d = 1%Z
                    \/ label h = "Left"%string /\ d = (-1)%Z)).
Proof.
  intros H Hpre Hh elapsed.
  assert (E : List.filter is_page_flick (signals self c)
              = if flick_guard self (current_time c) then flick_emit (label h) else []).
  { rewrite flick_signals, H, (find_first is_current_flick pre h post Hpre Hh).
    reflexivity. }
  split.
  - intros [Hi Hcd]. unfold flick_guard in E. rewrite Hi, Hcd in E. cbn in E.
    split; intros L; rewrite E, L; reflexivity.
  - intros d Hin.
    assert (Hin' : In (page_flick_ready d) (List.filter is_page_flick (signals self c))).
    { apply filter_In. split; [exact Hin|reflexivity]. }
    rewrite E in Hin'. unfold elapsed, flick_guard in *.
    destruct (is_flicking self); [destruct Hin'|].
    destruct (FLICK_COOLDOWN <? current_time c - last_flick_time self); [|destruct Hin'].
    split; [split; reflexivity|].
    unfold flick_emit in Hin'.
    destruct (String.eqb (label h) "Right") eqn:R.
    + apply String.eqb_eq in R. destruct Hin' as [Hd|[]].
      injection Hd as <-. left. split; [exact R|reflexivity].
    + destruct (String.eqb (label h) "Left") eqn:L; [|destruct Hin'].
      apply String.eqb_eq in L. destruct Hin' as [Hd|[]].
      injection Hd as <-. right. split; [exact L|reflexivity].
Qed.

(** C10: the Flick classifier does not look at the grasp state.  On the
    frame of a closed fist whose thumb tip touches the pinky tip the reported
    grasp state is [true], no Pinch-Confirm signal is emitted, and a flick
    signal is emitted; in general, on a frame whose cursor hand is grasping,
    a flick signal is emitted as soon as some hand's flick distance
    qualifies, the Flick machine is Idle and the cooldown is exceeded. *)
Theorem flick_ignores_grasp :
  (exists c h rest,
      multi_hand_landmarks c = h :: rest
      /\ grasping h = true
      /\ is_current_pinch h = true
      /\ signals init c
         = [gesture_ready true; coords_ready 0.5 0.76; page_flick_ready 1; image_ready])
  /\ (forall self c h rest,
         multi_hand_landmarks c = h :: rest ->
         grasping h = true ->
         labelled c ->
         flick_detected c = true ->
         is_flicking self = false ->
         (FLICK_COOLDOWN <? current_time c - last_flick_time self) = true ->
         In (gesture_ready true) (signals self c)
         /\ existsb is_page_flick (signals self c) = true).
Proof.
  split.
  - exists (Samples.frame [Samples.fist "Right"] 0), (Samples.fist "Right"), [].
    repeat split; vm_compute; reflexivity.
  - intros self c h rest H G L Hd Hi Hcd. split.
    + destruct (signals_hands self c h rest H) as (x & y & ->). rewrite G. left. reflexivity.
    + change (flick_fired self c = true).
      rewrite (flick_fired_labelled self c L), Hd. unfold flick_guard.
      rewrite Hi, Hcd. reflexivity.
Qed.

(** ** Capture failures *)

Lemma set_running_idem (self : VideoWorker) :
  running self = false -> set_running self false = self.
Proof. destruct self as [r f lp ip lf fl]. cbn. intros ->. reflexivity. Qed.

(** Once [running] is cleared the loop is over. *)
Lemma frame_loop_stopped (sched : list Tick) :
  forall self, running self = false -> frame_loop self sched = (self, []).
Proof.
  induction sched as [|[r|] sched IH]; intros self Hr; simpl.
  - reflexivity.
  - rewrite Hr. reflexivity.
  - rewrite (set_running_idem self Hr). apply IH, Hr.
Qed.

Lemma frame_loop_skips (pre : list Tick) :
  forall self post,
    frame_loop self (pre ++ cap_read None :: post) = frame_loop self (pre ++ post).
Proof.
  induction pre as [|[r|] pre IH]; intros self post; simpl.
  - destruct (running self) eqn:Hr.
    + destruct (frame_loop self post) as [s out]. reflexivity.
    + symmetry. apply frame_loop_stopped, Hr.
  - destruct (running self); [|reflexivity].
    destruct (iteration self r) as [s out]. rewrite IH. reflexivity.
  - apply IH.
Qed.

(** C9: when the capture device does not open, [run] clears [running] and
    returns without entering the loop and without any signal; a failed read
    inside the loop emits nothing and changes nothing, and the run goes on
    exactly as if that iteration had not been there. *)
Theorem capture_failures :
  (forall self sched,
      run self false sched = (set_running self false, [], false)
      /\ running (set_running self false) = false)
  /\ (forall self, iteration self None = (self, []))
  /\ (forall self post,
         running self = true ->
         frame_loop self (cap_read None :: post) = frame_loop self post)
  /\ (forall self pre post,
         run self true (pre ++ cap_read None :: post) = run self true (pre ++ post)).
Proof.
  split; [|split; [|split]].
  - intros self sched. split; reflexivity.
  - reflexivity.
  - intros self post Hr. exact (frame_loop_skips [] self post).
  - intros self pre post. unfold run. cbn [negb]. rewrite frame_loop_skips. reflexivity.
Qed.

(** * Further properties of the worker *)

Lemma process_no_hand (self : VideoWorker) (c : Capture) :
  multi_hand_landmarks c = [] ->
  process self c = (set_is_flicking (set_is_pinching self false) false, [image_ready]).
Proof. intros H. unfold process. rewrite H. reflexivity. Qed.

Lemma flick_part_cases (self : VideoWorker) (c : Capture) :
  let part := match find is_current_flick (multi_hand_landmarks c) with
              | Some h' => if flick_guard self (current_time c)
                           then flick_emit (label h') else []
              | None => []
              end in
  part = [] \/ part = [page_flick_ready 1] \/ part = [page_flick_ready (-1)].
Proof.
  cbv zeta. destruct (find is_current_flick (multi_hand_landmarks c)) as [h|]; [|left; reflexivity].
  destruct (flick_guard self (current_time c)); [|left; reflexivity].
  unfold flick_emit. destruct (String.eqb (label h) "Right"); [right; left; reflexivity|].
  destruct (String.eqb (label h) "Left"); [right; right; reflexivity|left; reflexivity].
Qed.

(** The tracked point of a frame with a hand: what goes into the filter,
    what comes out as the coordinate signal, and the filter kept. *)
Lemma frame_coords (self : VideoWorker) (c : Capture) (h : Hand) (rest : list Hand) :
  multi_hand_landmarks c = h :: rest ->
  let r := EMAFilter.filter (filter_index self) (fst (raw_point h)) (snd (raw_point h)) in
  List.filter is_coords (signals self c) = [coords_ready (fst (snd r)) (snd (snd r))]
  /\ filter_index (fst (process self c)) = fst r.
Proof.
  intros H r. unfold signals. rewrite (process_hands self c h rest H). cbn [fst snd].
  assert (T : track self h (grasping h)
              = (set_filter_index self (fst r), [coords_ready (fst (snd r)) (snd (snd r))])).
  { unfold track, r, raw_point. cbn [fst snd].
    destruct (EMAFilter.filter _ _ _) as [f [x y]]. reflexivity. }
  rewrite T. cbn [fst snd].
  destruct (pinch_spec (set_filter_index self (fst r)) h (grasping h) (current_time c))
    as (Hp & _ & _ & _ & Hfi & _).
  destruct (flick_spec (fst (pinch (set_filter_index self (fst r)) h (grasping h)
                               (current_time c))) (current_time c) (h :: rest))
    as (Hf & _ & _ & _ & Hfi' & _).
  cbv zeta in *. split.
  - rewrite Hp, Hf. cbn [List.filter is_coords app]. rewrite !filter_app.
    replace (List.filter is_coords
               (if is_current_pinch h
                   && pinch_guard (set_filter_index self (fst r)) (grasping h) (current_time c)
                then [return_home_ready] else [])) with (@nil Signal)
      by (destruct (is_current_pinch h && _); reflexivity).
    replace (List.filter is_coords
               match find is_current_flick (h :: rest) with
               | Some h0 =>
                   if flick_guard
                        (fst (pinch (set_filter_index self (fst r)) h (grasping h)
                                (current_time c))) (current_time c)
                   then flick_emit (label h0) else []
               | None => []
               end) with (@nil Signal).
    + reflexivity.
    + destruct (find is_current_flick (h :: rest)) as [h0|]; [|reflexivity].
      destruct (flick_guard _ _); [|reflexivity].
      unfold flick_emit. destruct (String.eqb (label h0) "Right"); [reflexivity|].
      destruct (String.eqb (label h0) "Left"); reflexivity.
  - rewrite Hfi', Hfi. reflexivity.
Qed.

(** X1: the signals of one frame come in a fixed order.  Without a hand
    only the image goes out (no grasp state, no coordinates).  With a hand:
    the grasp state, the coordinates, then at most one Pinch-Confirm, then at
    most one flick of direction +1 or -1, and the image last. *)
Theorem frame_signal_order (self : VideoWorker) (c : Capture) :
  match multi_hand_landmarks c with
  | [] => signals self c = [image_ready]
  | h :: _ =>
      exists x y homes flicks,
        signals self c
        = gesture_ready (grasping h) :: coords_ready x y :: homes ++ flicks ++ [image_ready]
        /\ homes = (if pinch_fired self c then [return_home_ready] else [])
        /\ (flicks = [] \/ flicks = [page_flick_ready 1] \/ flicks = [page_flick_ready (-1)])
  end.
Proof.
  destruct (multi_hand_landmarks c) as [|h rest] eqn:H.
  - unfold signals. rewrite (process_no_hand self c H). reflexivity.
  - destruct (signals_hands self c h rest H) as (x & y & E).
    exists x, y. eexists. eexists. split; [exact E|]. split.
    + rewrite pinch_fired_eq, H. reflexivity.
    + rewrite <- H. apply flick_part_cases.
Qed.

(** X2: the coordinate signal of a frame with a hand is the smoothed index
    fingertip of the cursor hand, its y lowered by Y_COMPENSATION_OFFSET
    exactly when that hand is grasping and its x never touched: on the first
    hand ever seen the raw point itself, afterwards alpha times the raw point
    plus (1 - alpha) times the point emitted before; and the point emitted
    is the one the filter remembers. *)
Theorem tracked_point (self : VideoWorker) (c : Capture) (h : Hand) (rest : list Hand) :
  multi_hand_landmarks c = h :: rest ->
  let x := px (landmark h INDEX_FINGER_TIP) in
  let y := if grasping h then py (landmark h INDEX_FINGER_TIP) - Y_COMPENSATION_OFFSET
           else py (landmark h INDEX_FINGER_TIP) in
  let a := EMAFilter.alpha (filter_index self) in
  (EMAFilter.last (filter_index self) = None ->
   List.filter is_coords (signals self c) = [coords_ready x y]
   /\ EMAFilter.last (filter_index (fst (process self c))) = Some (x, y))
  /\ (forall sx sy,
         EMAFilter.last (filter_index self) = Some (sx, sy) ->
         List.filter is_coords (signals self c)
         = [coords_ready (a * x + (1 - a) * sx) (a * y + (1 - a) * sy)]
         /\ EMAFilter.last (filter_index (fst (process self c)))
            = Some (a * x + (1 - a) * sx, a * y + (1 - a) * sy)).
Proof.
  intros H x y a. destruct (frame_coords self c h rest H) as [Hs Hf].
  cbv zeta in Hs, Hf. rewrite Hs, Hf, filter_last.
  change (fst (raw_point h)) with x. change (snd (raw_point h)) with y.
  split.
  - intros Hl. rewrite (filter_fresh _ x y Hl). split; reflexivity.
  - intros sx sy Hl. rewrite (filter_smooth _ x y sx sy Hl). split; reflexivity.
Qed.

Lemma trace_coords_eq (cs : list Capture) :
  forall s1 s2,
    filter_index s1 = filter_index s2 ->
    List.filter is_coords (trace s1 cs)
    = List.filter is_coords (trace s2 (List.filter has_hand cs)).
Proof.
  induction cs as [|c cs IH]; intros s1 s2 E; [reflexivity|].
  cbn [trace List.filter]. unfold has_hand at 1.
  destruct (multi_hand_landmarks c) as [|h rest] eqn:H.
  - unfold signals. rewrite (process_no_hand s1 c H). cbn [fst snd app List.filter is_coords].
    apply IH. rewrite <- E. reflexivity.
  - cbn [trace]. rewrite !filter_app.
    destruct (frame_coords s1 c h rest H) as [Hs1 Hf1].
    destruct (frame_coords s2 c h rest H) as [Hs2 Hf2].
    cbv zeta in *. rewrite Hs1, Hs2, E. f_equal.
    apply IH. rewrite Hf1, Hf2, E. reflexivity.
Qed.

(** X3: losing the hand pauses the smoothing and does not reset it: the
    coordinate signals of a frame sequence are the same, one by one, as
    those of the sequence with its hand-less frames taken out, and a
    hand-less frame leaves the filter as it was. *)
Theorem hand_loss_pauses_filter (self : VideoWorker) :
  (forall cs,
      List.filter is_coords (trace self cs)
      = List.filter is_coords (trace self (List.filter has_hand cs)))
  /\ (forall c, has_hand c = false ->
                filter_index (fst (process self c)) = filter_index self).
Proof.
  split.
  - intros cs. apply trace_coords_eq. reflexivity.
  - intros c Hc. unfold has_hand in Hc.
    destruct (multi_hand_landmarks c) eqn:H; [|discriminate Hc].
    rewrite (process_no_hand self c H). reflexivity.
Qed.

Lemma process_running (self : VideoWorker) (c : Capture) :
  running (fst (process self c)) = running self.
Proof.
  destruct (multi_hand_landmarks c) as [|h rest] eqn:H.
  - rewrite (process_no_hand self c H). reflexivity.
  - apply (worker_hands self c h rest H).
Qed.

Lemma frame_loop_run (sched : list Tick) :
  forall self,
    running self = true ->
    frame_loop self sched
    = (if existsb is_stop sched
       then set_running (after self (before_stop sched)) false
       else after self (before_stop sched),
       trace self (before_stop sched)).
Proof.
  induction sched as [|[[c|]|] sched IH]; intros self Hr.
  - reflexivity.
  - cbn [frame_loop before_stop existsb is_stop orb trace]. rewrite Hr.
    unfold iteration. rewrite after_cons.
    destruct (process self c) as [s out] eqn:P.
    assert (Hs : running s = true).
    { pose proof (process_running self c) as R. rewrite P in R. cbn in R. congruence. }
    cbn [fst]. rewrite (IH s Hs). unfold signals. rewrite P. reflexivity.
  - cbn [frame_loop before_stop existsb is_stop orb]. rewrite Hr.
    unfold iteration. rewrite (IH self Hr).
    destruct (existsb is_stop sched); rewrite app_nil_l; reflexivity.
  - cbn [frame_loop before_stop existsb is_stop orb after fold_left trace].
    apply frame_loop_stopped. reflexivity.
Qed.

(** X4: a run whose capture device opened emits exactly the signals of the
    frames read successfully before the first [stop()], in order, and ends
    in the state those frames lead to, with [running] cleared when [stop()]
    was called; whatever is scheduled after [stop()] has no effect. *)
Theorem run_until_stop (self : VideoWorker) (sched : list Tick) :
  running self = true ->
  run self true sched
  = (if existsb is_stop sched
     then set_running (after self (before_stop sched)) false
     else after self (before_stop sched),
     trace self (before_stop sched), true)
  /\ (forall pre post,
         sched = pre ++ stop_called :: post ->
         run self true sched = run self true (pre ++ [stop_called])).
Proof.
  intros Hr. split.
  - unfold run. cbn [negb]. rewrite (frame_loop_run sched self Hr). reflexivity.
  - intros pre post ->. unfold run. cbn [negb].
    rewrite !(frame_loop_run _ self Hr).
    assert (B : forall tl, before_stop (pre ++ stop_called :: tl) = before_stop pre).
    { intros tl. induction pre as [|[[c|]|] pre IHp]; cbn; [reflexivity| |exact IHp|reflexivity].
      rewrite IHp. reflexivity. }
    rewrite !B, !existsb_app. cbn. rewrite !orb_true_r. reflexivity.
Qed.

Lemma process_filter_index (self : VideoWorker) (c : Capture) :
  EMAFilter.alpha (filter_index (fst (process self c))) = EMAFilter.alpha (filter_index self)
  /\ (EMAFilter.last (filter_index (fst (process self c))) = None
      <-> EMAFilter.last (filter_index self) = None /\ has_hand c = false).
Proof.
  unfold has_hand. destruct (multi_hand_landmarks c) as [|h rest] eqn:H.
  - rewrite (process_no_hand self c H). cbn. tauto.
  - destruct (frame_coords self c h rest H) as [_ Hf]. cbv zeta in Hf.
    rewrite Hf, filter_alpha, filter_last. split; [reflexivity|].
    split; [discriminate|intros [_ D]; discriminate D].
Qed.

(** X5: processing frames never touches [running] nor the smoothing factor,
    and the filter is uninitialised after a frame sequence exactly when it
    was before and no frame of the sequence had a hand: once a hand has been
    seen the filter stays initialised. *)
Theorem worker_invariants (self : VideoWorker) (cs : list Capture) :
  running (after self cs) = running self
  /\ EMAFilter.alpha (filter_index (after self cs)) = EMAFilter.alpha (filter_index self)
  /\ (EMAFilter.last (filter_index (after self cs)) = None
      <-> EMAFilter.last (filter_index self) = None /\ existsb has_hand cs = false).
Proof.
  revert self. induction cs as [|c cs IH]; intros self.
  - cbn. tauto.
  - rewrite after_cons. destruct (IH (fst (process self c))) as (Hr & Ha & Hl).
    destruct (process_filter_index self c) as (Ha' & Hl').
    rewrite Hr, Ha, Hl, process_running, Ha', Hl'. cbn [existsb].
    rewrite orb_false_iff. tauto.
Qed.

Lemma outputs_axes (raw1 : list (float * float)) :
  forall (raw2 : list (float * float)) (f1 f2 : EMAFilter.t),
    EMAFilter.alpha f1 = EMAFilter.alpha f2 ->
    (map fst raw1 = map fst raw2 ->
     option_map fst (EMAFilter.last f1) = option_map fst (EMAFilter.last f2) ->
     map fst (EMAFilter.outputs f1 raw1) = map fst (EMAFilter.outputs f2 raw2))
    /\ (map snd raw1 = map snd raw2 ->
        option_map snd (EMAFilter.last f1) = option_map snd (EMAFilter.last f2) ->
        map snd (EMAFilter.outputs f1 raw1) = map snd (EMAFilter.outputs f2 raw2)).
Proof.
  induction raw1 as [|[x1 y1] raw1 IH]; intros [|[x2 y2] raw2] f1 f2 Ha;
    split; intros Hm Hl; try discriminate Hm; try reflexivity.
  - rewrite !outputs_cons. cbn [map] in *. injection Hm as -> Hm.
    assert (E : fst (snd (EMAFilter.filter f1 x2 y1)) = fst (snd (EMAFilter.filter f2 x2 y2))).
    { unfold EMAFilter.filter. rewrite Ha.
      destruct (EMAFilter.last f1) as [[a1 b1]|], (EMAFilter.last f2) as [[a2 b2]|];
        cbn in *; congruence. }
    rewrite E. f_equal.
    apply (IH raw2); [rewrite !filter_alpha; exact Ha|exact Hm|].
    rewrite !filter_last. cbn. rewrite E. reflexivity.
  - rewrite !outputs_cons. cbn [map] in *. injection Hm as -> Hm.
    assert (E : snd (snd (EMAFilter.filter f1 x1 y2)) = snd (snd (EMAFilter.filter f2 x2 y2))).
    { unfold EMAFilter.filter. rewrite Ha.
      destruct (EMAFilter.last f1) as [[a1 b1]|], (EMAFilter.last f2) as [[a2 b2]|];
        cbn in *; congruence. }
    rewrite E. f_equal.
    apply (IH raw2); [rewrite !filter_alpha; exact Ha|exact Hm|].
    rewrite !filter_last. cbn. rewrite E. reflexivity.
Qed.

(** X6: the two axes of the filter do not influence each other: the x
    outputs for a stream depend only on the x inputs (and likewise for y),
    whatever the other coordinate does. *)
Theorem ema_axes_independent (a : float) (raw1 raw2 : list (float * float)) :
  (map fst raw1 = map fst raw2 ->
   map fst (EMAFilter.outputs (EMAFilter.init a) raw1)
   = map fst (EMAFilter.outputs (EMAFilter.init a) raw2))
  /\ (map snd raw1 = map snd raw2 ->
      map snd (EMAFilter.outputs (EMAFilter.init a) raw1)
      = map snd (EMAFilter.outputs (EMAFilter.init a) raw2)).
Proof.
  destruct (outputs_axes raw1 raw2 (EMAFilter.init a) (EMAFilter.init a) eq_refl) as [Hx Hy].
  split; intros Hm; [apply Hx|apply Hy]; auto.
Qed.

Lemma ema_axes_independent_witness :
  map fst (EMAFilter.outputs (EMAFilter.init 0.3) [(0.5, 0.5); (0.9, 0.1)])
  = map fst (EMAFilter.outputs (EMAFilter.init 0.3) [(0.5, 0.2); (0.9, 0.7)]).
Proof.
  apply (proj1 (ema_axes_independent 0.3 [(0.5, 0.5); (0.9, 0.1)] [(0.5, 0.2); (0.9, 0.7)])).
  reflexivity.
Defined.

(** Counting the frames of a sequence on which a gesture fired. *)
Section SingleFire.

Variable active : VideoWorker -> bool.
Variable last : VideoWorker -> float.
Variable det : Capture -> bool.
Variable trig : VideoWorker -> Capture -> bool.
Variable cooldown : float.

Hypothesis active_step : forall s c,
    active (fst (process s c)) = det c && (trig s c || active s).
Hypothesis trig_guard : forall s c,
    trig s c = true ->
    det c = true /\ active s = false /\ (cooldown <? current_time c - last s) = true.

Lemma quiet_count (l : list bool) :
  ~ In true l -> count_occ bool_dec l true = 0%nat.
Proof. intros H. apply count_occ_not_In, H. Qed.

Lemma single_fire (cs : list Capture) :
  forall s,
    Forall (fun c => det c = true) cs ->
    (count_occ bool_dec (fires trig s cs) true <= 1)%nat.
Proof.
  induction cs as [|c cs IH]; intros s Hd; [cbn; lia|].
  inversion Hd as [|? ? Hc Hcs]; subst. cbn [fires].
  destruct (trig s c) eqn:Ht.
  - rewrite count_occ_cons_eq by reflexivity.
    assert (Ha : active (fst (process s c)) = true).
    { rewrite active_step, Hc, Ht. reflexivity. }
    destruct (held active last det trig cooldown active_step trig_guard cs _ Ha Hcs)
      as [_ Hq].
    rewrite (quiet_count _ Hq). lia.
  - rewrite count_occ_cons_neq by discriminate. apply IH, Hcs.
Qed.

End SingleFire.

Lemma count_fires_le (cs : list Capture) :
  forall s,
    (count_occ bool_dec (fires flick_fired s cs) true
     <= count_occ bool_dec
          (fires (fun s c => flick_detected c && flick_guard s (current_time c)) s cs)
          true)%nat.
Proof.
  induction cs as [|c cs IH]; intros s; [cbn; lia|].
  cbn [fires]. specialize (IH (fst (process s c))).
  destruct (flick_fired s c) eqn:F.
  - rewrite (flick_fired_trigger s c F), !count_occ_cons_eq by reflexivity. lia.
  - rewrite count_occ_cons_neq by discriminate.
    destruct (flick_detected c && flick_guard s (current_time c)).
    + rewrite count_occ_cons_eq by reflexivity. lia.
    + rewrite count_occ_cons_neq by discriminate. exact IH.
Qed.

(** X7: one continuous detection yields at most one event.  Over any run
    of consecutive frames on all of which the pinch pose (resp. a flick pose)
    is detected, and from any state of the worker, the Pinch-Confirm signal
    (resp. a flick signal) is emitted on at most one frame. *)
Theorem one_event_per_detection (self : VideoWorker) (cs : list Capture) :
  (Forall (fun c => pinch_detected c = true) cs ->
   (count_occ bool_dec (fires pinch_fired self cs) true <= 1)%nat)
  /\ (Forall (fun c => flick_detected c = true) cs ->
      (count_occ bool_dec (fires flick_fired self cs) true <= 1)%nat).
Proof.
  split; intros Hd.
  - exact (single_fire is_pinching last_pinch_time pinch_detected pinch_fired PINCH_COOLDOWN
             pinch_active_step pinch_trig_guard cs self Hd).
  - pose proof (single_fire is_flicking last_flick_time flick_detected
                  (fun s c => flick_detected c && flick_guard s (current_time c))
                  FLICK_COOLDOWN flick_active_step flick_trig_guard cs self Hd) as H.
    pose proof (count_fires_le cs self). lia.
Qed.

(** * Properties of the window *)

(** ** Comparisons of binary64 values *)

Lemma SFcompare_antisym (x y : spec_float) :
  SFcompare y x = option_map CompOpp (SFcompare x y).
Proof.
  destruct x as [sx|sx| |sx mx ex], y as [sy|sy| |sy my ey]; cbn;
    try reflexivity;
    try (destruct sx; reflexivity); try (destruct sy; reflexivity);
    try (destruct sx, sy; reflexivity).
  destruct sx, sy; cbn; try reflexivity;
    rewrite (Z.compare_antisym ex ey); destruct (ex ?= ey)%Z; cbn; try reflexivity;
    pose proof (Pos.compare_cont_antisym mx my Eq) as A; cbn [CompOpp] in A;
    destruct (Pos.compare_cont Eq mx my), (Pos.compare_cont Eq my mx);
    cbn in *; congruence.
Qed.

Lemma ltb_leb (x y : float) : (x <? y) = true -> (x <=? y) = true.
Proof.
  rewrite ltb_spec, leb_spec. unfold SFltb, SFleb.
  destruct (SFcompare (Prim2SF x) (Prim2SF y)) as [[]|]; intros H;
    try discriminate H; reflexivity.
Qed.

Lemma SFcompare_none (x y : spec_float) :
  SFcompare x y = None -> x = S754_nan \/ y = S754_nan.
Proof.
  destruct x, y; cbn; intros H; try discriminate H; auto.
Qed.

Lemma SFcompare_refl (x : spec_float) : x <> S754_nan -> SFcompare x x = Some Eq.
Proof.
  intros N. pose proof (SFcompare_antisym x x) as A.
  destruct (SFcompare x x) as [[]|] eqn:E; cbn in A; try discriminate A; [reflexivity|].
  destruct (SFcompare_none x x E); contradiction.
Qed.

Lemma SFcompare_nan_r (x : spec_float) : SFcompare x S754_nan = None.
Proof. destruct x; reflexivity. Qed.

Lemma ltb_leb_refl (x y : float) : (x <? y) = true -> (y <=? y) = true.
Proof.
  rewrite ltb_spec, leb_spec. unfold SFltb, SFleb. intros H.
  rewrite SFcompare_refl; [reflexivity|].
  intros N. rewrite N, SFcompare_nan_r in H. discriminate H.
Qed.

Lemma not_ltb_leb (v hi : float) :
  (0 <? v) = true -> (0 <? hi) = true -> (hi <? v) = false -> (v <=? hi) = true.
Proof.
  rewrite !ltb_spec, leb_spec. unfold SFltb, SFleb. intros Hv Hhi H.
  rewrite (SFcompare_antisym (Prim2SF hi) (Prim2SF v)).
  destruct (SFcompare (Prim2SF hi) (Prim2SF v)) as [[]|] eqn:E; cbn;
    try reflexivity; try discriminate H.
  destruct (SFcompare_none _ _ E) as [N|N]; rewrite N, SFcompare_nan_r in *; discriminate.
Qed.

(** [max(0, min(v, hi))] lies between 0 and [hi], whatever [v] is (a NaN
    gives 0). *)
Lemma clamp_in_range (v hi : float) :
  (0 <? hi) = true ->
  (0 <=? GameWindow.py_max 0 (GameWindow.py_min v hi)) = true
  /\ (GameWindow.py_max 0 (GameWindow.py_min v hi) <=? hi) = true.
Proof.
  intros Hhi. unfold GameWindow.py_max, GameWindow.py_min.
  destruct (hi <? v) eqn:H1.
  - rewrite Hhi. split; [apply ltb_leb, Hhi|apply (ltb_leb_refl 0), Hhi].
  - destruct (0 <? v) eqn:H2.
    + split; [apply ltb_leb, H2|apply not_ltb_leb; assumption].
    + split; [reflexivity|apply ltb_leb, Hhi].
Qed.

(** ** What the slots keep *)

Ltac window_simpl :=
  unfold GameWindow.window_ok, GameWindow.mode_ok, GameWindow.selection_ok,
    GameWindow.palette_ok, GameWindow.stroke_ok, GameWindow.cursor_ok,
    GameWindow.set_game_state, GameWindow.set_is_grasping, GameWindow.set_cursor_pos,
    GameWindow.set_knife_trail, GameWindow.set_current_selection,
    GameWindow.set_launcher_visible, GameWindow.set_drawing_canvas,
    GameWindow.set_canvas_pixmap, GameWindow.set_current_color,
    GameWindow.set_current_pen_size, GameWindow.set_color_tiles,
    GameWindow.set_size_tiles, GameWindow.set_last_draw_pos, GameWindow.set_spawn_timer,
    GameWindow.set_closed in *;
  cbn [GameWindow.game_state GameWindow.is_grasping GameWindow.cursor_pos
       GameWindow.knife_trail GameWindow.current_selection GameWindow.launcher_visible
       GameWindow.drawing_canvas GameWindow.canvas_pixmap GameWindow.current_color
       GameWindow.current_pen_size GameWindow.color_tiles GameWindow.size_tiles
       GameWindow.last_draw_pos GameWindow.spawn_timer GameWindow.closed] in *.

Ltac window_fields w :=
  destruct w as [w_state w_grasp w_cursor w_trail w_sel w_vis w_canvas w_pix w_color
                   w_pen w_ctiles w_stiles w_last w_spawn w_closed];
  window_simpl.

Lemma red_medium_ok : GameWindow.pen_ok GameWindow.RED 18.
Proof. split; cbn; tauto. Qed.

Lemma switch_ok (w : GameWindow.t) (mode : string) :
  mode = "launcher"%string \/ mode = "drawing_app"%string \/ mode = "fruit_slicer"%string ->
  GameWindow.window_ok w ->
  GameWindow.window_ok (GameWindow.switch_to_game_mode w mode).
Proof.
  intros Hm (Hmode & Hsel & (Hpen & Hcanvas) & Hstroke & Hcur).
  window_fields w.
  destruct Hmode as [M|[M|M]]; decompose [and] M; clear M; subst;
    destruct Hm as [-> | [-> | ->]]; cbn;
    (split; [tauto|]); (split; [assumption|]);
    (split; [split; [first [exact red_medium_ok|assumption]
                    |first [assumption|constructor]]|]);
    (split; [first [assumption|intros N; exfalso; apply N; reflexivity]|assumption]).
Qed.

Lemma getitem_game_list (i : Z) :
  (0 <= i < 3)%Z ->
  i = 0%Z /\ GameWindow.getitem GameWindow.game_list i
            = Some "Drawing App (体感绘画板)"%string
  \/ i = 1%Z /\ GameWindow.getitem GameWindow.game_list i
               = Some "Fruit Slicer (体感水果忍者)"%string
  \/ i = 2%Z /\ GameWindow.getitem GameWindow.game_list i
               = Some "Exit Game (退出)"%string.
Proof.
  intros H. assert (C : (i = 0 \/ i = 1 \/ i = 2)%Z) by lia.
  destruct C as [-> | [-> | ->]]; [left|right; left|right; right]; split; reflexivity.
Qed.

(** The flick slot: outside the launcher nothing, in the launcher the
    selection moves by [direction] modulo the number of games. *)
Lemma flick_result (w : GameWindow.t) (direction : Z) :
  GameWindow.handle_flick_gesture w direction
  = Some (if String.eqb (GameWindow.game_state w) "launcher"
          then GameWindow.set_current_selection w
                 ((GameWindow.current_selection w + direction) mod 3)%Z
          else w).
Proof.
  unfold GameWindow.handle_flick_gesture.
  destruct (String.eqb (GameWindow.game_state w) "launcher"); [|reflexivity].
  cbn [negb]. change (Z.of_nat (List.length GameWindow.game_list)) with 3%Z.
  assert (B : (0 <= (GameWindow.current_selection w + direction) mod 3 < 3)%Z)
    by (apply Z.mod_pos_bound; lia).
  change (GameWindow.current_selection (GameWindow.set_current_selection w ?v)) with v.
  destruct (Z.ltb_spec ((GameWindow.current_selection w + direction) mod 3) 0); [lia|].
  change (GameWindow.current_selection (GameWindow.set_current_selection w ?v)) with v.
  destruct (getitem_game_list _ B) as [[_ ->]|[[_ ->]|[_ ->]]]; reflexivity.
Qed.

Lemma flick_ok (w : GameWindow.t) (direction : Z) :
  GameWindow.window_ok w ->
  exists w', GameWindow.handle_flick_gesture w direction = Some w'
             /\ GameWindow.window_ok w'.
Proof.
  intros Hw. rewrite flick_result. eexists. split; [reflexivity|].
  destruct (String.eqb (GameWindow.game_state w) "launcher"); [|exact Hw].
  destruct Hw as (Hmode & Hsel & Hpal & Hstroke & Hcur).
  assert (B : (0 <= (GameWindow.current_selection w + direction) mod 3 < 3)%Z)
    by (apply Z.mod_pos_bound; lia).
  window_fields w.
  split; [exact Hmode|split; [exact B|split; [exact Hpal|split; [exact Hstroke|exact Hcur]]]].
Qed.

Lemma grasp_set_ok (w : GameWindow.t) :
  GameWindow.window_ok w ->
  GameWindow.window_ok (GameWindow.set_is_grasping w true)
  /\ GameWindow.window_ok
       (GameWindow.set_last_draw_pos (GameWindow.set_is_grasping w false) None).
Proof.
  intros (Hmode & Hsel & Hpal & Hstroke & Hcur). window_fields w. split.
  - split; [exact Hmode|split; [exact Hsel|split; [exact Hpal|split; [|exact Hcur]]]].
    reflexivity.
  - split; [|split; [exact Hsel|split; [exact Hpal|split; [|exact Hcur]]]].
    + destruct Hmode as [M|[M|M]]; [left|right; left|right; right]; tauto.
    + intros N. exfalso. apply N. reflexivity.
Qed.

Lemma close_ok (w : GameWindow.t) :
  GameWindow.window_ok w ->
  GameWindow.game_state w = "launcher"%string ->
  GameWindow.window_ok (GameWindow.closeEvent w).
Proof.
  intros (Hmode & Hsel & Hpal & Hstroke & Hcur) Hs. unfold GameWindow.closeEvent.
  window_fields w. subst.
  destruct Hmode as [M|[M|M]]; decompose [and] M; clear M; try discriminate; subst.
  split; [left; tauto|split; [exact Hsel|split; [exact Hpal|split; [exact Hstroke|exact Hcur]]]].
Qed.

Lemma color_order_lookup (name : string) :
  In name GameWindow.COLOR_ORDER ->
  exists color, GameWindow.lookup GameWindow.COLOR_CHOICES name = Some color
                /\ In color (map snd GameWindow.COLOR_CHOICES).
Proof.
  intros [<-|[<-|[<-|[<-|[<-|[]]]]]]; eexists; (split; [reflexivity|cbn; tauto]).
Qed.

(** A click in the drawing app picks at most a colour of the palette or a
    listed pen size, and changes nothing else. *)
Lemma pickup_ok (qt : GameWindow.Qt) (w : GameWindow.t) :
  GameWindow.window_ok w ->
  GameWindow.game_state w = "drawing_app"%string ->
  exists color width,
    GameWindow.check_color_and_size_pickup qt w
    = Some (GameWindow.set_current_pen_size (GameWindow.set_current_color w color) width)
    /\ GameWindow.pen_ok color width
    /\ (color = GameWindow.current_color w \/ width = GameWindow.current_pen_size w).
Proof.
  intros (Hmode & Hsel & (Hpen & Hcanvas) & Hstroke & Hcur) Hs.
  unfold GameWindow.check_color_and_size_pickup.
  assert (T : GameWindow.color_tiles w = GameWindow.COLOR_ORDER
              /\ GameWindow.size_tiles w = GameWindow.PEN_SIZES).
  { destruct Hmode as [M|[M|M]]; decompose [and] M; clear M; [congruence|tauto|congruence]. }
  destruct T as [-> ->]. destruct Hpen as [Hc Hp].
  destruct (find (GameWindow.intersects qt) GameWindow.COLOR_ORDER) as [name|] eqn:F.
  - apply find_some in F. destruct (color_order_lookup name (proj1 F)) as (color & -> & Hin).
    exists color, (GameWindow.current_pen_size w).
    split; [destruct w; reflexivity|]. split; [split; assumption|right; reflexivity].
  - destruct (find (fun tile => GameWindow.intersects qt (fst tile)) GameWindow.PEN_SIZES)
      as [tile|] eqn:G.
    + apply find_some in G. exists (GameWindow.current_color w), (snd tile).
      split; [destruct w; reflexivity|]. split; [|left; reflexivity].
      split; [assumption|]. apply in_map, (proj1 G).
    + exists (GameWindow.current_color w), (GameWindow.current_pen_size w).
      split; [destruct w; reflexivity|]. split; [split; assumption|left; reflexivity].
Qed.

Lemma pen_set_ok (w : GameWindow.t) (color : GameWindow.QColor) (width : Z) :
  GameWindow.window_ok w ->
  GameWindow.game_state w = "drawing_app"%string ->
  GameWindow.pen_ok color width ->
  GameWindow.window_ok
    (GameWindow.set_current_pen_size (GameWindow.set_current_color w color) width).
Proof.
  intros (Hmode & Hsel & (Hpen & Hcanvas) & Hstroke & Hcur) Hs Hok.
  window_fields w. subst.
  split; [|split; [exact Hsel|split; [split; assumption|split; [exact Hstroke|exact Hcur]]]].
  destruct Hmode as [M|[M|M]]; decompose [and] M; clear M; try discriminate.
  right; left. tauto.
Qed.

Lemma switch_keeps (w : GameWindow.t) (mode : string) :
  GameWindow.is_grasping (GameWindow.switch_to_game_mode w mode) = GameWindow.is_grasping w
  /\ GameWindow.current_selection (GameWindow.switch_to_game_mode w mode)
     = GameWindow.current_selection w
  /\ GameWindow.cursor_pos (GameWindow.switch_to_game_mode w mode) = GameWindow.cursor_pos w
  /\ GameWindow.knife_trail (GameWindow.switch_to_game_mode w mode)
     = GameWindow.knife_trail w
  /\ GameWindow.closed (GameWindow.switch_to_game_mode w mode) = GameWindow.closed w.
Proof.
  unfold GameWindow.switch_to_game_mode.
  destruct (String.eqb (GameWindow.game_state w) "drawing_app");
    [|destruct (String.eqb (GameWindow.game_state w) "fruit_slicer")];
    (destruct (String.eqb mode "drawing_app");
     [|destruct (String.eqb mode "fruit_slicer");
       [|destruct (String.eqb mode "launcher")]]);
    repeat split; reflexivity.
Qed.

(** The grasp slot on a window that satisfies the invariant: the result and
    what it keeps. *)
Lemma grasp_ok (qt : GameWindow.Qt) (w : GameWindow.t) (g : bool) :
  GameWindow.window_ok w ->
  exists w', GameWindow.handle_grasp_state qt w g = Some w'
             /\ GameWindow.window_ok w'
             /\ GameWindow.is_grasping w' = g
             /\ (GameWindow.is_grasping w = true \/ g = false ->
                 GameWindow.game_state w' = GameWindow.game_state w).
Proof.
  intros Hw. destruct (grasp_set_ok w Hw) as [Ht Hf].
  unfold GameWindow.handle_grasp_state.
  change (GameWindow.is_grasping (GameWindow.set_is_grasping w g)) with g.
  change (GameWindow.game_state (GameWindow.set_is_grasping w g))
    with (GameWindow.game_state w).
  destruct g.
  2:{ eexists. split; [reflexivity|]. split; [exact Hf|]. split; reflexivity. }
  destruct (GameWindow.is_grasping w) eqn:G; cbn [negb].
  { eexists. split; [reflexivity|]. split; [exact Ht|]. split; reflexivity. }
  assert (M : GameWindow.game_state w = "launcher"%string
              \/ GameWindow.game_state w = "drawing_app"%string
              \/ GameWindow.game_state w = "fruit_slicer"%string).
  { destruct Hw as (Hmode & _). destruct Hmode as [M|[M|M]]; tauto. }
  destruct M as [M|[M|M]]; rewrite M; cbn [String.eqb Ascii.eqb Bool.eqb].
  - unfold GameWindow.check_launcher_click.
    change (GameWindow.current_selection (GameWindow.set_is_grasping w true))
      with (GameWindow.current_selection w).
    change GameWindow.launcher_items_len with 4%Z.
    assert (S : (0 <= GameWindow.current_selection w < 3)%Z) by apply Hw.
    destruct (Z.leb_spec 4 (GameWindow.current_selection w + 1)); [lia|].
    destruct (getitem_game_list _ S) as [[_ ->]|[[_ ->]|[_ ->]]];
      (eexists; split; [reflexivity|]).
    + change (GameWindow.start_game ?s _)
        with (GameWindow.switch_to_game_mode s "drawing_app").
      split; [apply switch_ok; [tauto|exact Ht]|].
      split; [apply switch_keeps|]. intros [D|D]; discriminate D.
    + change (GameWindow.start_game ?s _)
        with (GameWindow.switch_to_game_mode s "fruit_slicer").
      split; [apply switch_ok; [tauto|exact Ht]|].
      split; [apply switch_keeps|]. intros [D|D]; discriminate D.
    + change (GameWindow.start_game ?s _) with (GameWindow.closeEvent s).
      split; [apply close_ok; [exact Ht|exact M]|].
      split; [reflexivity|]. intros [D|D]; discriminate D.
  - destruct (pickup_ok qt (GameWindow.set_is_grasping w true) Ht M)
      as (color & width & -> & Hok & _).
    eexists. split; [reflexivity|].
    split; [apply pen_set_ok; [exact Ht|exact M|exact Hok]|].
    split; [reflexivity|]. intros [D|D]; discriminate D.
  - eexists. split; [reflexivity|]. split; [exact Ht|]. split; [reflexivity|].
    intros [D|D]; discriminate D.
Qed.

Lemma knife_position (qt : GameWindow.Qt) (w : GameWindow.t) (x_norm y_norm : float) :
  let p := (GameWindow.py_max 0
              (GameWindow.py_min (x_norm * GameWindow.view_width qt * 1.5)
                 GameWindow.GAME_WIDTH),
            GameWindow.py_max 0
              (GameWindow.py_min (y_norm * GameWindow.view_height qt * 1.5)
                 GameWindow.GAME_HEIGHT)) in
  GameWindow.in_scene p
  /\ GameWindow.update_knife_position qt w x_norm y_norm
     = (if String.eqb (GameWindow.game_state w) "drawing_app"
           || String.eqb (GameWindow.game_state w) "fruit_slicer"
        then GameWindow.set_knife_trail (GameWindow.set_cursor_pos w p)
               (GameWindow.knife_trail w ++ [p])
        else GameWindow.set_cursor_pos w p).
Proof.
  intros p. split; [|reflexivity].
  unfold GameWindow.in_scene, p. cbn [fst snd].
  destruct (clamp_in_range (x_norm * GameWindow.view_width qt * 1.5) GameWindow.GAME_WIDTH
              eq_refl) as [X0 X1].
  destruct (clamp_in_range (y_norm * GameWindow.view_height qt * 1.5) GameWindow.GAME_HEIGHT
              eq_refl) as [Y0 Y1].
  repeat split; assumption.
Qed.

Lemma coords_ok (qt : GameWindow.Qt) (w : GameWindow.t) (x_norm y_norm : float) :
  GameWindow.window_ok w ->
  GameWindow.window_ok (GameWindow.update_knife_position qt w x_norm y_norm).
Proof.
  intros (Hmode & Hsel & Hpal & Hstroke & Hcur).
  destruct (knife_position qt w x_norm y_norm) as [Hp ->].
  destruct Hcur as [_ Htrail].
  destruct (String.eqb (GameWindow.game_state w) "drawing_app"
            || String.eqb (GameWindow.game_state w) "fruit_slicer");
    window_fields w;
    (split; [exact Hmode|split; [exact Hsel|split; [exact Hpal|split; [exact Hstroke|]]]]);
    (split; [exact Hp|]); [|exact Htrail].
  apply Forall_app. split; [exact Htrail|]. constructor; [exact Hp|constructor].
Qed.

Lemma draw_ok (w : GameWindow.t) :
  GameWindow.window_ok w ->
  GameWindow.window_ok (GameWindow.draw_on_canvas w).
Proof.
  intros (Hmode & Hsel & (Hpen & Hcanvas) & Hstroke & Hcur).
  unfold GameWindow.draw_on_canvas.
  destruct (GameWindow.is_grasping w) eqn:G; cbn [negb orb].
  2:{ window_fields w.
      split; [|split; [exact Hsel|split; [split; assumption|split; [|exact Hcur]]]].
      - destruct Hmode as [M|[M|M]]; [left|right; left|right; right]; tauto.
      - intros N. exfalso. apply N. reflexivity. }
  assert (Hnone : GameWindow.window_ok (GameWindow.set_last_draw_pos w None)).
  { window_fields w.
    split; [|split; [exact Hsel|split; [split; assumption|split; [|exact Hcur]]]].
    - destruct Hmode as [M|[M|M]]; [left|right; left|right; right]; tauto.
    - intros _. exact G. }
  destruct (GameWindow.drawing_canvas w) eqn:D; cbn [negb]; [|exact Hnone].
  destruct (GameWindow.GAME_WIDTH - GameWindow.COLOR_AREA_WIDTH
            <=? fst (GameWindow.cursor_pos w)); [exact Hnone|].
  assert (Hdraw : GameWindow.game_state w = "drawing_app"%string).
  { destruct Hmode as [M|[M|M]]; decompose [and] M; clear M; congruence. }
  destruct (GameWindow.last_draw_pos w) as [last|] eqn:L; window_fields w; subst.
  - split; [|split; [exact Hsel|split; [|split; [intros _; reflexivity|exact Hcur]]]].
    + destruct Hmode as [M|[M|M]]; decompose [and] M; clear M; try discriminate.
      right; left. tauto.
    + split; [exact Hpen|]. apply Forall_app. split; [exact Hcanvas|].
      constructor; [exact Hpen|constructor].
  - split; [|split; [exact Hsel|split; [split; assumption
                                       |split; [intros _; reflexivity|exact Hcur]]]].
    destruct Hmode as [M|[M|M]]; decompose [and] M; clear M; try discriminate.
    right; left. tauto.
Qed.

Lemma loop_ok (w : GameWindow.t) :
  GameWindow.window_ok w -> GameWindow.window_ok (GameWindow.game_loop w).
Proof.
  intros Hw. unfold GameWindow.game_loop.
  assert (Hd : GameWindow.window_ok
                 (if String.eqb (GameWindow.game_state w) "drawing_app"
                  then GameWindow.draw_on_canvas w else w)).
  { destruct (String.eqb (GameWindow.game_state w) "drawing_app");
      [apply draw_ok, Hw|exact Hw]. }
  destruct (if String.eqb (GameWindow.game_state w) "drawing_app"
            then GameWindow.draw_on_canvas w else w) as [] eqn:E.
  clear E Hw. destruct Hd as (Hmode & Hsel & Hpal & Hstroke & Hcur).
  window_simpl.
  destruct (GameWindow.max_trail_length <? List.length knife_trail)%nat;
    (split; [exact Hmode|split; [exact Hsel|split; [exact Hpal|split; [exact Hstroke|]]]]);
    [|exact Hcur].
  destruct Hcur as [Hc Ht]. split; [exact Hc|].
  destruct knife_trail as [|p trail]; [constructor|]. inversion Ht; assumption.
Qed.

Lemma dispatch_ok (w : GameWindow.t) (e : GameWindow.Event) :
  GameWindow.window_ok w ->
  exists w', GameWindow.dispatch w e = Some w' /\ GameWindow.window_ok w'.
Proof.
  intros Hw. destruct e as [qt [|x y|g|d|]|]; cbn [GameWindow.dispatch GameWindow.deliver].
  - eexists. split; [reflexivity|exact Hw].
  - eexists. split; [reflexivity|apply coords_ok, Hw].
  - destruct (grasp_ok qt w g Hw) as (w' & E & Hw' & _). exists w'. split; assumption.
  - apply flick_ok, Hw.
  - eexists. split; [reflexivity|apply switch_ok; [tauto|exact Hw]].
  - eexists. split; [reflexivity|apply loop_ok, Hw].
Qed.

Lemma init_ok : GameWindow.window_ok GameWindow.init.
Proof.
  unfold GameWindow.init. window_simpl.
  split; [left; repeat split; reflexivity|].
  split; [cbn; lia|].
  split; [split; [exact red_medium_ok|constructor]|].
  split; [intros N; exfalso; apply N; reflexivity|].
  split; [repeat split; reflexivity|constructor].
Qed.

Lemma play_ok (events : list GameWindow.Event) :
  forall w, GameWindow.window_ok w ->
            exists w', GameWindow.play w events = Some w' /\ GameWindow.window_ok w'.
Proof.
  induction events as [|e events IH]; intros w Hw.
  - exists w. split; [reflexivity|exact Hw].
  - destruct (dispatch_ok w e Hw) as (w1 & E & Hw1).
    cbn [GameWindow.play]. rewrite E. apply IH, Hw1.
Qed.

(** ** The window over whole event sequences *)

(** X8: whatever signals the worker sends and whenever the game timer
    ticks, no slot of the window raises an [IndexError] or a [KeyError], and
    the launcher selection stays a valid index of the game list. *)
Theorem window_never_raises (events : list GameWindow.Event) :
  exists w,
    GameWindow.play GameWindow.init events = Some w
    /\ (0 <= GameWindow.current_selection w < 3)%Z
    /\ GameWindow.getitem GameWindow.game_list (GameWindow.current_selection w) <> None.
Proof.
  destruct (play_ok events GameWindow.init init_ok) as (w & E & Hw).
  exists w. split; [exact E|].
  assert (S : (0 <= GameWindow.current_selection w < 3)%Z) by apply Hw.
  split; [exact S|].
  destruct (getitem_game_list _ S) as [[_ ->]|[[_ ->]|[_ ->]]]; discriminate.
Qed.

(** X9: the mode and the things that belong to it always agree.  After
    any events the mode is one of the three known ones; the launcher items are
    shown exactly in the launcher, the drawing canvas exists exactly in the
    drawing app (where the five colour tiles and three size tiles are in
    place), the fruit spawn timer runs exactly in the fruit slicer; and
    outside the drawing app there are no tiles and the pen is back to red,
    medium. *)
Theorem window_mode_consistent (events : list GameWindow.Event) :
  exists w,
    GameWindow.play GameWindow.init events = Some w
    /\ (GameWindow.game_state w = "launcher"%string
        \/ GameWindow.game_state w = "drawing_app"%string
        \/ GameWindow.game_state w = "fruit_slicer"%string)
    /\ (GameWindow.launcher_visible w = true <-> GameWindow.game_state w = "launcher"%string)
    /\ (GameWindow.drawing_canvas w = true <-> GameWindow.game_state w = "drawing_app"%string)
    /\ (GameWindow.spawn_timer w = true <-> GameWindow.game_state w = "fruit_slicer"%string)
    /\ (GameWindow.game_state w = "drawing_app"%string ->
        GameWindow.color_tiles w = ["Red"; "Green"; "Blue"; "Yellow"; "Eraser"]%string
        /\ map fst (GameWindow.size_tiles w) = ["Small"; "Medium"; "Large"]%string)
    /\ (GameWindow.game_state w <> "drawing_app"%string ->
        GameWindow.color_tiles w = [] /\ GameWindow.size_tiles w = []
        /\ GameWindow.current_color w = (255, 0, 0)%Z
        /\ GameWindow.current_pen_size w = 18%Z).
Proof.
  destruct (play_ok events GameWindow.init init_ok) as (w & E & (Hmode & _)).
  exists w. split; [exact E|].
  destruct Hmode as [M|[M|M]]; decompose [and] M; clear M;
    repeat match goal with H : _ = _ |- _ => rewrite H; clear H end;
    (split; [tauto|]);
    repeat (split; [split; intros D; (reflexivity || discriminate D)|]);
    (split; [intros D; first [discriminate D|split; reflexivity]|]);
    intros D; first [exfalso; apply D; reflexivity|repeat split; reflexivity].
Qed.

(** X10: the pen never leaves the palette.  After any events the current
    colour is one of the five of COLOR_CHOICES, the current pen size one of
    the three of PEN_SIZES, and so are the colour and width of every line
    painted on the canvas. *)
Theorem window_pen_in_palette (events : list GameWindow.Event) :
  exists w,
    GameWindow.play GameWindow.init events = Some w
    /\ In (GameWindow.current_color w)
          [(255, 0, 0); (0, 255, 0); (0, 0, 255); (255, 255, 0); (255, 250, 240)]%Z
    /\ In (GameWindow.current_pen_size w) [8; 18; 36]%Z
    /\ Forall (fun s =>
                 In (GameWindow.seg_color s)
                    [(255, 0, 0); (0, 255, 0); (0, 0, 255); (255, 255, 0); (255, 250, 240)]%Z
                 /\ In (GameWindow.seg_width s) [8; 18; 36]%Z)
              (GameWindow.canvas_pixmap w).
Proof.
  destruct (play_ok events GameWindow.init init_ok)
    as (w & E & (_ & _ & ((Hc & Hp) & Hcanvas) & _)).
  exists w. split; [exact E|]. split; [exact Hc|]. split; [exact Hp|exact Hcanvas].
Qed.

(** X11: a stroke is in progress only under a closed fist in the drawing
    app.  After any events, if the start point of the next line is set,
    then the window is in the drawing app and its grasp state is [true]; so
    no line ever joins points of two different grasps or drawing sessions. *)
Theorem window_stroke_needs_grasp (events : list GameWindow.Event) :
  exists w,
    GameWindow.play GameWindow.init events = Some w
    /\ (GameWindow.last_draw_pos w <> None ->
        GameWindow.is_grasping w = true
        /\ GameWindow.game_state w = "drawing_app"%string).
Proof.
  destruct (play_ok events GameWindow.init init_ok)
    as (w & E & (Hmode & _ & _ & Hstroke & _)).
  exists w. split; [exact E|]. intros N. split; [exact (Hstroke N)|].
  destruct Hmode as [M|[M|M]]; decompose [and] M; clear M; [contradiction|assumption|contradiction].
Qed.

(** X12: the cursor never leaves the scene.  After any events, with any
    coordinates sent by the worker (NaN and infinities included) and any
    viewport size, the cursor position and every point of the knife trail
    lie within 0..GAME_WIDTH by 0..GAME_HEIGHT. *)
Theorem window_cursor_in_scene (events : list GameWindow.Event) :
  exists w,
    GameWindow.play GameWindow.init events = Some w
    /\ Forall (fun p => (0 <=? fst p) = true /\ (fst p <=? 1200) = true
                        /\ (0 <=? snd p) = true /\ (snd p <=? 800) = true)
              (GameWindow.cursor_pos w :: GameWindow.knife_trail w).
Proof.
  destruct (play_ok events GameWindow.init init_ok)
    as (w & E & (_ & _ & _ & _ & (Hc & Ht))).
  exists w. split; [exact E|]. constructor; [exact Hc|exact Ht].
Qed.

(** ** The flick slot *)

(** X13: for every window and every integer direction the flick slot
    returns normally; outside the launcher it changes nothing, in the
    launcher it changes only the selection, to (selection + direction) mod 3,
    which lies in 0..2 even for a selection that did not: the branch adding
    the number of games to a negative result is never taken. *)
Theorem flick_slot_wraps (w : GameWindow.t) (direction : Z) :
  exists w',
    GameWindow.handle_flick_gesture w direction = Some w'
    /\ (GameWindow.game_state w <> "launcher"%string -> w' = w)
    /\ (GameWindow.game_state w = "launcher"%string ->
        w' = GameWindow.set_current_selection w
               ((GameWindow.current_selection w + direction) mod 3)%Z
        /\ (0 <= GameWindow.current_selection w' < 3)%Z).
Proof.
  rewrite flick_result. eexists. split; [reflexivity|]. split.
  - intros N. destruct (String.eqb_spec (GameWindow.game_state w) "launcher");
      [contradiction|reflexivity].
  - intros ->. cbn [String.eqb Ascii.eqb Bool.eqb]. split; [reflexivity|].
    change (GameWindow.current_selection (GameWindow.set_current_selection w ?v)) with v.
    apply Z.mod_pos_bound. lia.
Qed.

Lemma flick_slot_wraps_witness :
  exists w',
    GameWindow.handle_flick_gesture GameWindow.init (-1) = Some w'
    /\ GameWindow.current_selection w' = 2%Z.
Proof.
  destruct (flick_slot_wraps GameWindow.init (-1)) as (w' & E & _ & H).
  exists w'. split; [exact E|]. destruct (H eq_refl) as [-> _]. reflexivity.
Defined.

Lemma set_selection_same (w : GameWindow.t) :
  GameWindow.set_current_selection w (GameWindow.current_selection w) = w.
Proof. destruct w; reflexivity. Qed.

Lemma set_selection_twice (w : GameWindow.t) (a b : Z) :
  GameWindow.set_current_selection (GameWindow.set_current_selection w a) b
  = GameWindow.set_current_selection w b.
Proof. reflexivity. Qed.

(** X14: flicks undo each other and cycle.  On a window whose selection
    is a valid index, a flick of any direction followed by the opposite flick
    gives back the same window (a Right-hand flick undoes a Left-hand one),
    and three flicks of the same direction +1 or -1 do so too. *)
Theorem flick_round_trip (w : GameWindow.t) (direction : Z) :
  (0 <= GameWindow.current_selection w < 3)%Z ->
  (exists w1,
      GameWindow.handle_flick_gesture w direction = Some w1
      /\ GameWindow.handle_flick_gesture w1 (- direction) = Some w)
  /\ (direction = 1%Z \/ direction = (-1)%Z ->
      exists w1 w2,
        GameWindow.handle_flick_gesture w direction = Some w1
        /\ GameWindow.handle_flick_gesture w1 direction = Some w2
        /\ GameWindow.handle_flick_gesture w2 direction = Some w).
Proof.
  intros S. split.
  - eexists. split; [apply flick_result|]. rewrite flick_result.
    destruct (String.eqb (GameWindow.game_state w) "launcher") eqn:L.
    + change (GameWindow.game_state (GameWindow.set_current_selection w ?v))
        with (GameWindow.game_state w). rewrite L.
      change (GameWindow.current_selection (GameWindow.set_current_selection w ?v)) with v.
      rewrite set_selection_twice, Z.add_mod_idemp_l by lia.
      replace (GameWindow.current_selection w + direction + - direction)%Z
        with (GameWindow.current_selection w) by lia.
      rewrite Z.mod_small by lia. rewrite set_selection_same. reflexivity.
    + rewrite L. reflexivity.
  - intros D. destruct (String.eqb (GameWindow.game_state w) "launcher") eqn:L.
    + assert (F : forall v,
                 GameWindow.handle_flick_gesture (GameWindow.set_current_selection w v)
                   direction
                 = Some (GameWindow.set_current_selection w ((v + direction) mod 3)%Z)).
      { intros v. rewrite flick_result.
        change (GameWindow.game_state (GameWindow.set_current_selection w v))
          with (GameWindow.game_state w). rewrite L. reflexivity. }
      exists (GameWindow.set_current_selection w
                ((GameWindow.current_selection w + direction) mod 3)%Z).
      exists (GameWindow.set_current_selection w
                (((GameWindow.current_selection w + direction) mod 3 + direction) mod 3)%Z).
      split; [rewrite flick_result, L; reflexivity|]. split; [apply F|].
      rewrite F.
      assert (K : ((((GameWindow.current_selection w + direction) mod 3 + direction) mod 3
                    + direction) mod 3)%Z = GameWindow.current_selection w).
      { assert (C : (GameWindow.current_selection w = 0
                     \/ GameWindow.current_selection w = 1
                     \/ GameWindow.current_selection w = 2)%Z) by lia.
        destruct C as [C|[C|C]]; rewrite C; destruct D as [-> | ->]; reflexivity. }
      rewrite K, set_selection_same. reflexivity.
    + exists w, w. rewrite flick_result, L. repeat split; reflexivity.
Qed.

Lemma flick_round_trip_witness :
  exists w1,
    GameWindow.handle_flick_gesture GameWindow.init 1 = Some w1
    /\ GameWindow.handle_flick_gesture w1 (- (1)) = Some GameWindow.init.
Proof.
  apply (proj1 (flick_round_trip GameWindow.init 1 (conj (Z.le_refl 0) eq_refl))).
Defined.

(** ** The grasp slot and whole frames *)

Lemma reached_ok (events : list GameWindow.Event) (w : GameWindow.t) :
  GameWindow.play GameWindow.init events = Some w -> GameWindow.window_ok w.
Proof.
  intros E. destruct (play_ok events GameWindow.init init_ok) as (w' & E' & Hw).
  congruence.
Qed.

(** X15: the grasp slot acts on changes only.  On any window reached from
    the initial one, handling a grasp state and then the same grasp state
    again (the worker repeats it on every frame) leaves the window exactly
    as the first call left it: a held fist clicks once. *)
Theorem grasp_slot_idempotent
    (events : list GameWindow.Event) (w : GameWindow.t) (qt qt' : GameWindow.Qt) (g : bool) :
  GameWindow.play GameWindow.init events = Some w ->
  exists w1,
    GameWindow.handle_grasp_state qt w g = Some w1
    /\ GameWindow.handle_grasp_state qt' w1 g = Some w1.
Proof.
  intros E. pose proof (reached_ok events w E) as Hw.
  destruct (grasp_ok qt w g Hw) as (w1 & E1 & Hw1 & G1 & _).
  exists w1. split; [exact E1|].
  unfold GameWindow.handle_grasp_state.
  change (GameWindow.is_grasping (GameWindow.set_is_grasping w1 g)) with g.
  destruct g.
  - rewrite G1. cbn [negb]. destruct w1; cbn in G1; subst; reflexivity.
  - destruct Hw1 as (_ & _ & _ & Hstroke & _).
    destruct (GameWindow.last_draw_pos w1) as [p|] eqn:L.
    + unfold GameWindow.stroke_ok in Hstroke. rewrite L in Hstroke.
      assert (N : Some p <> None) by discriminate. specialize (Hstroke N). congruence.
    + destruct w1; cbn in G1, L; subst; reflexivity.
Qed.

Lemma grasp_slot_idempotent_witness :
  exists w1,
    GameWindow.handle_grasp_state (GameWindow.mkQt 640 480 (fun _ => false))
      GameWindow.init true = Some w1
    /\ GameWindow.handle_grasp_state (GameWindow.mkQt 640 480 (fun _ => false))
         w1 true = Some w1.
Proof.
  apply (grasp_slot_idempotent [] GameWindow.init). reflexivity.
Defined.

Lemma loop_keeps (w : GameWindow.t) :
  GameWindow.game_state (GameWindow.game_loop w) = GameWindow.game_state w
  /\ GameWindow.is_grasping (GameWindow.game_loop w) = GameWindow.is_grasping w.
Proof.
  unfold GameWindow.game_loop, GameWindow.draw_on_canvas.
  destruct (String.eqb (GameWindow.game_state w) "drawing_app").
  - destruct (negb (GameWindow.is_grasping w) || negb (GameWindow.drawing_canvas w));
      [|destruct (_ <=? _); [|destruct (GameWindow.last_draw_pos w)]];
      cbv zeta; match goal with |- context [(?a <? ?b)%nat] => destruct (a <? b)%nat end;
      split; reflexivity.
  - destruct (_ <? _)%nat; split; reflexivity.
Qed.

Lemma coords_keeps (qt : GameWindow.Qt) (w : GameWindow.t) (x y : float) :
  GameWindow.game_state (GameWindow.update_knife_position qt w x y) = GameWindow.game_state w
  /\ GameWindow.is_grasping (GameWindow.update_knife_position qt w x y)
     = GameWindow.is_grasping w.
Proof.
  destruct (knife_position qt w x y) as [_ ->].
  destruct (_ || _); split; reflexivity.
Qed.

(** What one event does to the mode and the grasp state. *)
Lemma dispatch_keeps (w : GameWindow.t) (e : GameWindow.Event) :
  GameWindow.window_ok w ->
  exists w1,
    GameWindow.dispatch w e = Some w1
    /\ GameWindow.window_ok w1
    /\ match e with
       | GameWindow.signal _ (gesture_ready g) =>
           GameWindow.is_grasping w1 = g
           /\ (GameWindow.is_grasping w = true \/ g = false ->
               GameWindow.game_state w1 = GameWindow.game_state w)
       | GameWindow.signal _ return_home_ready =>
           GameWindow.game_state w1 = "launcher"%string
           /\ GameWindow.is_grasping w1 = GameWindow.is_grasping w
       | _ =>
           GameWindow.game_state w1 = GameWindow.game_state w
           /\ GameWindow.is_grasping w1 = GameWindow.is_grasping w
       end.
Proof.
  intros Hw. destruct e as [qt [|x y|g|d|]|]; cbn [GameWindow.dispatch GameWindow.deliver].
  - exists w. split; [reflexivity|]. split; [exact Hw|split; reflexivity].
  - eexists. split; [reflexivity|]. split; [apply coords_ok, Hw|apply coords_keeps].
  - destruct (grasp_ok qt w g Hw) as (w1 & E & Hw1 & G & K). exists w1. tauto.
  - rewrite flick_result. eexists. split; [reflexivity|].
    split; [|destruct (String.eqb _ _); split; reflexivity].
    destruct (flick_ok w d Hw) as (w1 & E & Hw1). rewrite flick_result in E.
    injection E as <-. exact Hw1.
  - eexists. split; [reflexivity|]. split; [apply switch_ok; [tauto|exact Hw]|].
    split; [|apply switch_keeps].
    unfold GameWindow.switch_to_game_mode.
    destruct (String.eqb (GameWindow.game_state w) "drawing_app");
      [|destruct (String.eqb (GameWindow.game_state w) "fruit_slicer")]; reflexivity.
  - eexists. split; [reflexivity|]. split; [apply loop_ok, Hw|apply loop_keeps].
Qed.

Lemma fist_frame_signals (self : VideoWorker) (c : Capture) :
  match multi_hand_landmarks c with
  | h :: _ => grasping h = true
  | [] => True
  end ->
  Forall (fun s => s <> return_home_ready /\ s <> gesture_ready false) (signals self c).
Proof.
  intros Hc. pose proof (frame_signal_order self c) as O.
  pose proof (pinch_fired_eq self c) as P.
  destruct (multi_hand_landmarks c) as [|h rest].
  - rewrite O. constructor; [split; discriminate|constructor].
  - destruct O as (x & y & homes & flicks & -> & -> & Hf).
    rewrite P. unfold pinch_guard. rewrite Hc. cbn [negb andb]. rewrite andb_false_r.
    cbn [app]. constructor; [split; discriminate|]. constructor; [split; discriminate|].
    apply Forall_app. split.
    + destruct Hf as [-> | [-> | ->]]; repeat constructor; discriminate.
    + repeat constructor; discriminate.
Qed.

Lemma fist_trace_signals (cs : list Capture) :
  forall self,
    Forall (fun c => match multi_hand_landmarks c with
                     | h :: _ => grasping h = true
                     | [] => True
                     end) cs ->
    Forall (fun s => s <> return_home_ready /\ s <> gesture_ready false) (trace self cs).
Proof.
  induction cs as [|c cs IH]; intros self Hcs; [constructor|].
  inversion Hcs as [|? ? Hc Hrest]; subst. cbn [trace]. apply Forall_app. split.
  - apply fist_frame_signals, Hc.
  - apply IH, Hrest.
Qed.

Lemma play_under_fist (events : list GameWindow.Event) :
  forall w,
    GameWindow.window_ok w ->
    GameWindow.is_grasping w = true ->
    Forall (fun s => s <> return_home_ready /\ s <> gesture_ready false)
           (GameWindow.signals_of events) ->
    exists w',
      GameWindow.play w events = Some w'
      /\ GameWindow.game_state w' = GameWindow.game_state w
      /\ GameWindow.is_grasping w' = true.
Proof.
  induction events as [|e events IH]; intros w Hw G Hs.
  - exists w. split; [reflexivity|split; [reflexivity|exact G]].
  - destruct (dispatch_keeps w e Hw) as (w1 & E & Hw1 & K).
    cbn [GameWindow.play]. rewrite E.
    assert (K1 : GameWindow.game_state w1 = GameWindow.game_state w
                 /\ GameWindow.is_grasping w1 = true
                 /\ Forall (fun s => s <> return_home_ready /\ s <> gesture_ready false)
                           (GameWindow.signals_of events)).
    { destruct e as [qt s|]; cbn [GameWindow.signals_of flat_map app] in Hs;
        fold (GameWindow.signals_of events) in Hs.
      - inversion Hs as [|? ? Hhd Htl]; subst. destruct s as [|x y|g|d|].
        + destruct K as [-> ->]. tauto.
        + destruct K as [-> ->]. tauto.
        + destruct K as [Kg Ks]. destruct g; [|destruct Hhd as [_ N]; contradiction].
          split; [apply Ks; left; exact G|]. tauto.
        + destruct K as [-> ->]. tauto.
        + destruct Hhd as [N _]. contradiction.
      - destruct K as [-> ->]. tauto. }
    destruct K1 as (Ks & Kg & Hrest).
    destruct (IH w1 Hw1 Kg Hrest) as (w' & E' & S' & G').
    exists w'. split; [exact E'|]. split; [congruence|exact G'].
Qed.

(** X16: nothing starts or ends under a closed fist.  Take a window
    reached from the initial one whose grasp state is [true], and frames of
    the worker (from any worker state) in which the cursor hand, whenever a
    hand is present, is classified as grasping.  Delivering the signals of
    those frames, in order, with game timer ticks anywhere in between, never
    changes the mode: no game is launched, left or closed. *)
Theorem held_fist_keeps_mode
    (before events : list GameWindow.Event) (w : GameWindow.t)
    (self : VideoWorker) (cs : list Capture) :
  GameWindow.play GameWindow.init before = Some w ->
  GameWindow.is_grasping w = true ->
  Forall (fun c => match multi_hand_landmarks c with
                   | h :: _ => grasping h = true
                   | [] => True
                   end) cs ->
  GameWindow.delivers events (trace self cs) ->
  exists w',
    GameWindow.play w events = Some w'
    /\ GameWindow.game_state w' = GameWindow.game_state w
    /\ GameWindow.is_grasping w' = true.
Proof.
  intros E G Hcs D. apply play_under_fist; [exact (reached_ok before w E)|exact G|].
  unfold GameWindow.delivers in D. rewrite D. apply fist_trace_signals, Hcs.
Qed.

Lemma play_without_click (events : list GameWindow.Event) :
  forall w,
    GameWindow.window_ok w ->
    ~ In (gesture_ready true) (GameWindow.signals_of events) ->
    exists w',
      GameWindow.play w events = Some w'
      /\ GameWindow.window_ok w'
      /\ (GameWindow.is_grasping w = false
          \/ In (gesture_ready false) (GameWindow.signals_of events) ->
          GameWindow.is_grasping w' = false)
      /\ (GameWindow.game_state w = "launcher"%string
          \/ In return_home_ready (GameWindow.signals_of events) ->
          GameWindow.game_state w' = "launcher"%string).
Proof.
  induction events as [|e events IH]; intros w Hw Hn.
  - exists w. split; [reflexivity|]. split; [exact Hw|].
    split; intros [H|[]]; exact H.
  - destruct (dispatch_keeps w e Hw) as (w1 & E & Hw1 & K).
    cbn [GameWindow.play]. rewrite E.
    cbn [GameWindow.signals_of flat_map] in Hn |- *.
    fold (GameWindow.signals_of events) in Hn |- *.
    assert (Hn' : ~ In (gesture_ready true) (GameWindow.signals_of events)).
    { intros H. apply Hn. apply in_or_app. right. exact H. }
    destruct (IH w1 Hw1 Hn') as (w' & E' & Hw' & G' & S').
    exists w'. split; [exact E'|]. split; [exact Hw'|].
    destruct e as [qt [|x y|g|d|]|]; cbn [app].
    + destruct K as [Ks Kg]. rewrite Ks, Kg in *. split.
      * intros [H|[H|H]]; [apply G'; left; exact H|discriminate H|apply G'; right; exact H].
      * intros [H|[H|H]]; [apply S'; left; exact H|discriminate H|apply S'; right; exact H].
    + destruct K as [Ks Kg]. rewrite Ks, Kg in *. split.
      * intros [H|[H|H]]; [apply G'; left; exact H|discriminate H|apply G'; right; exact H].
      * intros [H|[H|H]]; [apply S'; left; exact H|discriminate H|apply S'; right; exact H].
    + destruct K as [Kg Ks]. destruct g; [exfalso; apply Hn; left; reflexivity|].
      rewrite (Ks (or_intror eq_refl)) in *. split.
      * intros _. apply G'. left. exact Kg.
      * intros [H|[H|H]]; [apply S'; left; exact H|discriminate H|apply S'; right; exact H].
    + destruct K as [Ks Kg]. rewrite Ks, Kg in *. split.
      * intros [H|[H|H]]; [apply G'; left; exact H|discriminate H|apply G'; right; exact H].
      * intros [H|[H|H]]; [apply S'; left; exact H|discriminate H|apply S'; right; exact H].
    + destruct K as [Ks Kg]. rewrite Kg in *. split.
      * intros [H|[H|H]]; [apply G'; left; exact H|discriminate H|apply G'; right; exact H].
      * intros _. apply S'. left. exact Ks.
    + destruct K as [Ks Kg]. rewrite Ks, Kg in *. split.
      * intros [H|H]; [apply G'; left; exact H|apply G'; right; exact H].
      * intros [H|H]; [apply S'; left; exact H|apply S'; right; exact H].
Qed.

(** X17: a Pinch-Confirm always brings the launcher back.  When the
    Pinch-Confirm signal is among the signals of a frame and these are
    delivered in order (game timer ticks anywhere in between) to a window
    reached from the initial one, the window ends in the launcher with the
    launcher items shown and its grasp state [false], whatever mode it was
    in and whether or not the same frame also carried a flick. *)
Theorem pinch_returns_home
    (before events : list GameWindow.Event) (w : GameWindow.t)
    (self : VideoWorker) (c : Capture) :
  GameWindow.play GameWindow.init before = Some w ->
  pinch_fired self c = true ->
  GameWindow.delivers events (signals self c) ->
  exists w',
    GameWindow.play w events = Some w'
    /\ GameWindow.game_state w' = "launcher"%string
    /\ GameWindow.launcher_visible w' = true
    /\ GameWindow.is_grasping w' = false.
Proof.
  intros E F D. pose proof (reached_ok before w E) as Hw.
  pose proof (frame_signal_order self c) as O.
  pose proof (pinch_fired_eq self c) as P. rewrite F in P.
  destruct (multi_hand_landmarks c) as [|h rest]; [discriminate P|].
  destruct O as (x & y & homes & flicks & Es & -> & Hf). rewrite F in Es.
  assert (G : grasping h = false).
  { symmetry in P. apply andb_true_iff in P. destruct P as [_ P].
    unfold pinch_guard in P. destruct (grasping h); [discriminate P|reflexivity]. }
  rewrite G in Es. unfold GameWindow.delivers in D. rewrite Es in D.
  destruct (play_without_click events w Hw) as (w' & E' & Hw' & G' & S').
  { rewrite D. intros [H|[H|H]]; try discriminate H. cbn [app] in H.
    destruct H as [H|H]; [discriminate H|].
    apply in_app_or in H. destruct H as [H|[H|[]]]; [|discriminate H].
    destruct Hf as [-> | [-> | ->]]; [destruct H|destruct H as [H|[]]; discriminate H
                                     |destruct H as [H|[]]; discriminate H]. }
  exists w'. split; [exact E'|].
  assert (L : GameWindow.game_state w' = "launcher"%string).
  { apply S'. right. rewrite D. right. right. left. reflexivity. }
  split; [exact L|]. split.
  - destruct Hw' as (Hmode & _).
    destruct Hmode as [M|[M|M]]; decompose [and] M; clear M; congruence.
  - apply G'. right. rewrite D. left. reflexivity.
Qed.

(** X18: closing the fist in the launcher confirms the highlighted entry,
    wherever the cursor is.  On a window reached from the initial one that
    is in the launcher with an open hand, the grasp slot called with [true]
    returns normally (the index guard never stops it), its result does not
    depend on the Qt readings, and it opens the drawing app for entry 0
    (canvas and tiles set up, launcher hidden), the fruit slicer for entry 1
    (spawn timer started) and closes the window for entry 2 (timers
    stopped, mode unchanged). *)
Theorem launcher_click_starts_selected
    (events : list GameWindow.Event) (w : GameWindow.t) (qt : GameWindow.Qt) :
  GameWindow.play GameWindow.init events = Some w ->
  GameWindow.game_state w = "launcher"%string ->
  GameWindow.is_grasping w = false ->
  exists w1,
    (forall qt', GameWindow.handle_grasp_state qt' w true = Some w1)
    /\ GameWindow.is_grasping w1 = true
    /\ (GameWindow.current_selection w = 0%Z ->
        GameWindow.game_state w1 = "drawing_app"%string
        /\ GameWindow.drawing_canvas w1 = true /\ GameWindow.canvas_pixmap w1 = []
        /\ GameWindow.launcher_visible w1 = false
        /\ GameWindow.closed w1 = GameWindow.closed w)
    /\ (GameWindow.current_selection w = 1%Z ->
        GameWindow.game_state w1 = "fruit_slicer"%string
        /\ GameWindow.spawn_timer w1 = true
        /\ GameWindow.launcher_visible w1 = false
        /\ GameWindow.closed w1 = GameWindow.closed w)
    /\ (GameWindow.current_selection w = 2%Z ->
        GameWindow.game_state w1 = "launcher"%string
        /\ GameWindow.closed w1 = true /\ GameWindow.spawn_timer w1 = false).
Proof.
  intros E L G. pose proof (reached_ok events w E) as Hw.
  assert (S : (0 <= GameWindow.current_selection w < 3)%Z) by apply Hw.
  assert (C : forall qt',
             GameWindow.handle_grasp_state qt' w true
             = match GameWindow.getitem GameWindow.game_list (GameWindow.current_selection w)
               with
               | Some name =>
                   Some (GameWindow.start_game (GameWindow.set_is_grasping w true) name)
               | None => None
               end).
  { intros qt'. unfold GameWindow.handle_grasp_state.
    change (GameWindow.is_grasping (GameWindow.set_is_grasping w true)) with true.
    change (GameWindow.game_state (GameWindow.set_is_grasping w true))
      with (GameWindow.game_state w).
    rewrite G, L. cbn [negb String.eqb Ascii.eqb Bool.eqb].
    unfold GameWindow.check_launcher_click.
    change (GameWindow.current_selection (GameWindow.set_is_grasping w true))
      with (GameWindow.current_selection w).
    change GameWindow.launcher_items_len with 4%Z.
    destruct (Z.leb_spec 4 (GameWindow.current_selection w + 1)); [lia|reflexivity]. }
  destruct Hw as (Hmode & _).
  destruct Hmode as [M|[M|M]]; decompose [and] M; clear M; try congruence.
  destruct (getitem_game_list _ S) as [[S0 Eg]|[[S0 Eg]|[S0 Eg]]];
    eexists; (split; [intros qt'; rewrite C, Eg; reflexivity|]);
    destruct w; cbn in *; subst; cbn;
    repeat split; intros; try reflexivity; try lia.
Qed.

Lemma launcher_click_starts_selected_witness :
  exists w1,
    (forall qt', GameWindow.handle_grasp_state qt' GameWindow.init true = Some w1)
    /\ GameWindow.game_state w1 = "drawing_app"%string.
Proof.
  destruct (launcher_click_starts_selected [] GameWindow.init WindowSamples.qt0
              eq_refl eq_refl eq_refl) as (w1 & H & _ & H0 & _).
  exists w1. split; [exact H|]. apply (H0 eq_refl).
Defined.

End Platform.

(** * Closed instances

    The statements above hold for every platform [pow].  The instances
    below either fix the platform to the correctly rounded one
    ([Samples.exact_pow]) or, where they speak about every platform, use the
    sample hands whose classification does not depend on it. *)

Lemma pinch_confirm_fires_iff_witness :
  In return_home_ready
     (signals Samples.exact_pow (released Samples.exact_pow)
        (Samples.frame [Samples.pinch_hand "Right"] 1.5))
  <-> (pinch_distance Samples.exact_pow (Samples.pinch_hand "Right") <? PINCH_THRESHOLD)
      = true
      /\ grasping Samples.exact_pow (Samples.pinch_hand "Right") = false
      /\ is_pinching (released Samples.exact_pow) = false
      /\ (PINCH_COOLDOWN
          <? current_time (Samples.frame [Samples.pinch_hand "Right"] 1.5)
             - last_pinch_time (released Samples.exact_pow)) = true.
Proof.
  apply (pinch_confirm_fires_iff Samples.exact_pow (released Samples.exact_pow)
           (Samples.frame [Samples.pinch_hand "Right"] 1.5)
           (Samples.pinch_hand "Right") []).
  reflexivity.
Defined.

(** C1 (as stated) fails at the boundary.  A pinch fires at [T0] and is
    released; one second after the fire the pose is back, the hand is not
    grasping and the classifier is Idle: the elapsed time is at least
    PINCH_COOLDOWN, and yet, on every platform, no Pinch-Confirm signal is
    emitted. *)
Lemma pinch_confirm_at_cooldown_boundary :
  (PINCH_COOLDOWN
   <=? current_time (Samples.frame [Samples.pinch_hand "Right"] 1) - Samples.T0) = true
  /\ forall platform_pow : float -> float,
      last_pinch_time (released platform_pow) = Samples.T0
      /\ is_pinching (released platform_pow) = false
      /\ (pinch_distance platform_pow (Samples.pinch_hand "Right") <? PINCH_THRESHOLD) = true
      /\ grasping platform_pow (Samples.pinch_hand "Right") = false
      /\ ~ In return_home_ready
             (signals platform_pow (released platform_pow)
                (Samples.frame [Samples.pinch_hand "Right"] 1)).
Proof.
  split; [vm_compute; reflexivity|]. intros platform_pow.
  repeat split; try (vm_compute; reflexivity).
  intros Hin. apply in_return_home in Hin. vm_compute in Hin. discriminate Hin.
Qed.

Lemma no_pinch_confirm_while_grasping_witness :
  is_current_pinch Samples.exact_pow (Samples.fist "Right") = true
  /\ In (gesture_ready true)
        (signals Samples.exact_pow init (Samples.frame [Samples.fist "Right"] 0))
  /\ ~ In return_home_ready
         (signals Samples.exact_pow init (Samples.frame [Samples.fist "Right"] 0)).
Proof.
  split; [vm_compute; reflexivity|].
  apply (no_pinch_confirm_while_grasping Samples.exact_pow init
           (Samples.frame [Samples.fist "Right"] 0) (Samples.fist "Right") []);
    vm_compute; reflexivity.
Defined.

(** The reset at work: both machines are Active after a frame on which a
    pinch and a flick fired, and Idle after the hand-less frame that follows. *)
Lemma hand_loss_resets_to_idle_witness :
  is_pinching
    (after Samples.exact_pow init
       [Samples.frame [Samples.pinch_hand "Right"; Samples.flick_hand "Left"] 0]) = true
  /\ is_flicking
       (after Samples.exact_pow init
          [Samples.frame [Samples.pinch_hand "Right"; Samples.flick_hand "Left"] 0]) = true
  /\ is_pinching
       (fst (process Samples.exact_pow
               (after Samples.exact_pow init
                  [Samples.frame [Samples.pinch_hand "Right"; Samples.flick_hand "Left"] 0])
               (Samples.frame [] 0.25))) = false
  /\ is_flicking
       (fst (process Samples.exact_pow
               (after Samples.exact_pow init
                  [Samples.frame [Samples.pinch_hand "Right"; Samples.flick_hand "Left"] 0])
               (Samples.frame [] 0.25))) = false.
Proof.
  split; [vm_compute; reflexivity|]. split; [vm_compute; reflexivity|].
  destruct (hand_loss_resets_to_idle Samples.exact_pow
              (after Samples.exact_pow init
                 [Samples.frame [Samples.pinch_hand "Right"; Samples.flick_hand "Left"] 0])
              (Samples.frame [] 0.25) (Samples.frame [] 0.5) eq_refl) as (Hp & Hf & _).
  split; [exact Hp|exact Hf].
Defined.

(** C2 (as stated) fails.  A pinch and a flick fire on one frame at [T0]
    (both machines Active); a quarter of a second later a frame has no hand
    (both machines Idle); half a second after the fires the pinch and the
    flick pose both qualify again, the hand not grasping: on every platform
    neither signal is emitted, the cooldown still applies. *)
Lemma refire_after_hand_loss_waits_for_cooldown :
  multi_hand_landmarks (Samples.frame [] 0.25) = []
  /\ forall platform_pow : float -> float,
      let both := Samples.frame [Samples.pinch_hand "Right"; Samples.flick_hand "Left"] in
      let fired := after platform_pow init [both 0] in
      let lost := fst (process platform_pow fired (Samples.frame [] 0.25)) in
      signals platform_pow init (both 0)
      = [gesture_ready false; coords_ready 0 0; return_home_ready;
         page_flick_ready (-1); image_ready]
      /\ is_pinching fired = true /\ is_flicking fired = true
      /\ is_pinching lost = false /\ is_flicking lost = false
      /\ pinch_detected platform_pow (both 0.5) = true
      /\ flick_detected platform_pow (both 0.5) = true
      /\ grasping platform_pow (Samples.pinch_hand "Right") = false
      /\ pinch_fired platform_pow lost (both 0.5) = false
      /\ flick_fired platform_pow lost (both 0.5) = false.
Proof.
  split; [reflexivity|]. intros platform_pow. cbv zeta.
  repeat split; vm_compute; reflexivity.
Qed.


(** A held pinch does not fire twice; a pinch fired again after a release
    comes more than the cooldown later (likewise a flick); and a pinch pose
    that begins under a closed fist fires on the frame where the fist opens. *)
Lemma edge_triggered_events_witness :
  pinch_fired Samples.exact_pow
    (after Samples.exact_pow
       (fst (process Samples.exact_pow init (Samples.frame [Samples.pinch_hand "Right"] 0)))
       [Samples.frame [Samples.pinch_hand "Right"] 0.25])
    (Samples.frame [Samples.pinch_hand "Right"] 0.5) = false
  /\ (PINCH_COOLDOWN
      <? current_time (Samples.frame [Samples.pinch_hand "Right"] 1.5)
         - current_time (Samples.frame [Samples.pinch_hand "Right"] 0)) = true
  /\ (FLICK_COOLDOWN
      <? current_time (Samples.frame [Samples.flick_hand "Left"] 1.5)
         - current_time (Samples.frame [Samples.flick_hand "Left"] 0)) = true
  /\ pinch_detected Samples.exact_pow (Samples.frame [Samples.fist "Right"] 0) = true
  /\ pinch_fired Samples.exact_pow init (Samples.frame [Samples.fist "Right"] 0) = false
  /\ pinch_fired Samples.exact_pow
       (after Samples.exact_pow init [Samples.frame [Samples.fist "Right"] 0])
       (Samples.frame [Samples.pinch_hand "Right"] 0.25) = true
  /\ flick_fired Samples.exact_pow
       (after Samples.exact_pow init [Samples.frame [Samples.open_hand "Left"] 0])
       (Samples.frame [Samples.flick_hand "Left"] 0.25) = true.
Proof.
  split; [|split; [|split; [|split; [|split; [|split]]]]].
  - destruct (edge_triggered_events Samples.exact_pow init
                (Samples.frame [Samples.pinch_hand "Right"] 0)
                [Samples.frame [Samples.pinch_hand "Right"] 0.25]
                (Samples.frame [Samples.pinch_hand "Right"] 0.5)) as [Hp _].
    destruct (Hp eq_refl) as (_ & Hheld & _).
    apply Hheld. repeat constructor.
  - destruct (edge_triggered_events Samples.exact_pow init
                (Samples.frame [Samples.pinch_hand "Right"] 0)
                [Samples.frame [Samples.open_hand "Right"] 0.25;
                 Samples.frame [Samples.pinch_hand "Right"] 0.5]
                (Samples.frame [Samples.pinch_hand "Right"] 1.5)) as [Hp _].
    destruct (Hp eq_refl) as (_ & _ & Hsp).
    apply Hsp; [|vm_compute; reflexivity].
    vm_compute. intros [H|[H|[]]]; discriminate H.
  - destruct (edge_triggered_events Samples.exact_pow init
                (Samples.frame [Samples.flick_hand "Left"] 0)
                [Samples.frame [Samples.open_hand "Left"] 0.25;
                 Samples.frame [Samples.flick_hand "Left"] 0.5]
                (Samples.frame [Samples.flick_hand "Left"] 1.5)) as (_ & Hf & _).
    destruct (Hf eq_refl) as (_ & _ & Hsp).
    apply Hsp; [| |vm_compute; reflexivity].
    + constructor; [constructor; [right; reflexivity|constructor]|].
      constructor; [constructor; [right; reflexivity|constructor]|constructor].
    + vm_compute. intros [H|[H|[]]]; discriminate H.
  - vm_compute. reflexivity.
  - vm_compute. reflexivity.
  - destruct (edge_triggered_events Samples.exact_pow init
                (Samples.frame [] 0) [Samples.frame [Samples.fist "Right"] 0]
                (Samples.frame [Samples.pinch_hand "Right"] 0.25)) as (_ & _ & Hi & _).
    destruct Hi as (_ & _ & ->); [reflexivity| |vm_compute; reflexivity].
    vm_compute. intros [H|[]]; discriminate H.
  - destruct (edge_triggered_events Samples.exact_pow init
                (Samples.frame [] 0) [Samples.frame [Samples.open_hand "Left"] 0]
                (Samples.frame [Samples.flick_hand "Left"] 0.25)) as (_ & _ & _ & Hi).
    destruct Hi as (_ & _ & ->); [reflexivity| | | |vm_compute; reflexivity].
    + constructor; [constructor; [right; reflexivity|constructor]|constructor].
    + constructor; [right; reflexivity|constructor].
    + vm_compute. intros [H|[]]; discriminate H.
Defined.

(** C6 (as stated) fails on "only on the rising edge".  A pose that starts
    half a second after a fire (inside the cooldown) is detected, not fired,
    held, and fires one second later on a frame whose predecessor already had
    the pose detected; the same for Pinch-Confirm and Flick.  And a pinch pose
    that starts under a closed fist fires on the next frame, where the pose
    continues and the fist has opened.  All of it on every platform. *)
Lemma fire_inside_continuous_detection :
  (PINCH_COOLDOWN
   <? current_time (Samples.frame [Samples.pinch_hand "Right"] 0.5) - Samples.T0) = false
  /\ forall platform_pow : float -> float,
      let pinches := [Samples.frame [Samples.pinch_hand "Right"] 0;
                      Samples.frame [Samples.open_hand "Right"] 0.25;
                      Samples.frame [Samples.pinch_hand "Right"] 0.5;
                      Samples.frame [Samples.pinch_hand "Right"] 1.5] in
      let flicks := [Samples.frame [Samples.flick_hand "Left"] 0;
                     Samples.frame [Samples.open_hand "Left"] 0.25;
                     Samples.frame [Samples.flick_hand "Left"] 0.5;
                     Samples.frame [Samples.flick_hand "Left"] 1.5] in
      let grasped := [Samples.frame [Samples.fist "Right"] 0;
                      Samples.frame [Samples.pinch_hand "Right"] 0.25] in
      map (pinch_detected platform_pow) pinches = [true; false; true; true]
      /\ fires platform_pow (pinch_fired platform_pow) init pinches
         = [true; false; false; true]
      /\ map (flick_detected platform_pow) flicks = [true; false; true; true]
      /\ fires platform_pow (flick_fired platform_pow) init flicks
         = [true; false; false; true]
      /\ map (pinch_detected platform_pow) grasped = [true; true]
      /\ fires platform_pow (pinch_fired platform_pow) init grasped = [false; true].
Proof.
  split; [vm_compute; reflexivity|]. intros platform_pow. cbv zeta.
  repeat split; vm_compute; reflexivity.
Qed.

Lemma flick_shared_state_witness :
  flick Samples.exact_pow init Samples.T0
        ([Samples.open_hand "Right"] ++ Samples.flick_hand "Left"
           :: [Samples.flick_hand "Right"])
  = flick Samples.exact_pow init Samples.T0 [Samples.flick_hand "Left"]
  /\ flick_fired Samples.exact_pow
       (fst (process Samples.exact_pow init (Samples.frame [Samples.flick_hand "Left"] 0)))
       (Samples.frame [Samples.open_hand "Left"; Samples.flick_hand "Right"] 1.5) = false.
Proof.
  destruct (flick_shared_state Samples.exact_pow) as (_ & Hstop & _ & Hshared).
  split.
  - apply Hstop; [repeat constructor|reflexivity].
  - apply Hshared; vm_compute; reflexivity.
Defined.

Lemma flick_direction_witness :
  List.filter is_page_flick
    (signals Samples.exact_pow init
       (Samples.frame [Samples.open_hand "Right"; Samples.flick_hand "Left";
                       Samples.flick_hand "Right"] 0))
  = [page_flick_ready (-1)]
  /\ List.filter is_page_flick
       (signals Samples.exact_pow init (Samples.frame [Samples.flick_hand "Right"] 0))
     = [page_flick_ready 1].
Proof.
  split.
  - apply (flick_direction Samples.exact_pow init
             (Samples.frame [Samples.open_hand "Right"; Samples.flick_hand "Left";
                             Samples.flick_hand "Right"] 0)
             [Samples.open_hand "Right"] (Samples.flick_hand "Left")
             [Samples.flick_hand "Right"]);
      try reflexivity; [repeat constructor|split; vm_compute; reflexivity].
  - apply (flick_direction Samples.exact_pow init
             (Samples.frame [Samples.flick_hand "Right"] 0)
             [] (Samples.flick_hand "Right") []);
      try reflexivity; [constructor|split; vm_compute; reflexivity].
Defined.

Lemma flick_ignores_grasp_witness :
  In (gesture_ready true)
     (signals Samples.exact_pow init (Samples.frame [Samples.fist "Left"] 0))
  /\ existsb is_page_flick
       (signals Samples.exact_pow init (Samples.frame [Samples.fist "Left"] 0)) = true.
Proof.
  apply (proj2 (flick_ignores_grasp Samples.exact_pow) init
           (Samples.frame [Samples.fist "Left"] 0) (Samples.fist "Left") []);
    try (vm_compute; reflexivity).
  constructor; [right; reflexivity|constructor].
Defined.

Lemma capture_failures_witness :
  frame_loop Samples.exact_pow init
    [cap_read None; cap_read (Some (Samples.frame [Samples.fist "Right"] 0))]
  = frame_loop Samples.exact_pow init
      [cap_read (Some (Samples.frame [Samples.fist "Right"] 0))].
Proof.
  apply (proj1 (proj2 (proj2 (capture_failures Samples.exact_pow))) init). reflexivity.
Defined.

Lemma tracked_point_witness :
  List.filter is_coords
    (signals Samples.exact_pow init (Samples.frame [Samples.fist "Right"] 0))
  = [coords_ready 0.5 (0.8 - 0.04)]
  /\ EMAFilter.last
       (filter_index
          (fst (process Samples.exact_pow init (Samples.frame [Samples.fist "Right"] 0))))
     = Some (0.5, 0.8 - 0.04).
Proof.
  apply (proj1 (tracked_point Samples.exact_pow init
                  (Samples.frame [Samples.fist "Right"] 0)
                  (Samples.fist "Right") [] eq_refl)).
  reflexivity.
Defined.

Lemma hand_loss_pauses_filter_witness :
  filter_index
    (fst (process Samples.exact_pow (released Samples.exact_pow) (Samples.frame [] 1)))
  = filter_index (released Samples.exact_pow).
Proof.
  apply (proj2 (hand_loss_pauses_filter Samples.exact_pow (released Samples.exact_pow))).
  reflexivity.
Defined.

Lemma run_until_stop_witness :
  run Samples.exact_pow init true
    [cap_read (Some (Samples.frame [Samples.fist "Right"] 0)); stop_called;
     cap_read (Some (Samples.frame [Samples.pinch_hand "Right"] 2))]
  = run Samples.exact_pow init true
      [cap_read (Some (Samples.frame [Samples.fist "Right"] 0)); stop_called].
Proof.
  apply (proj2 (run_until_stop Samples.exact_pow init _ eq_refl)
           [cap_read (Some (Samples.frame [Samples.fist "Right"] 0))]
           [cap_read (Some (Samples.frame [Samples.pinch_hand "Right"] 2))]).
  reflexivity.
Defined.

Lemma one_event_per_detection_witness :
  (count_occ bool_dec
     (fires Samples.exact_pow (pinch_fired Samples.exact_pow) init
        [Samples.frame [Samples.pinch_hand "Right"] 0;
         Samples.frame [Samples.pinch_hand "Right"] 0.5;
         Samples.frame [Samples.pinch_hand "Right"] 1.5]) true <= 1)%nat.
Proof.
  apply (proj1 (one_event_per_detection Samples.exact_pow init _)). repeat constructor.
Defined.

Lemma held_fist_keeps_mode_witness :
  exists w',
    GameWindow.play WindowSamples.drawing
      (WindowSamples.with_ticks (trace Samples.exact_pow init WindowSamples.fist_frames))
    = Some w'
    /\ GameWindow.game_state w' = GameWindow.game_state WindowSamples.drawing
    /\ GameWindow.is_grasping w' = true.
Proof.
  apply (held_fist_keeps_mode Samples.exact_pow WindowSamples.open_drawing
           (WindowSamples.with_ticks (trace Samples.exact_pow init WindowSamples.fist_frames))
           WindowSamples.drawing init WindowSamples.fist_frames).
  - reflexivity.
  - reflexivity.
  - repeat constructor.
  - vm_compute. reflexivity.
Defined.

Lemma pinch_returns_home_witness :
  exists w',
    GameWindow.play WindowSamples.drawing
      (WindowSamples.with_ticks
         (signals Samples.exact_pow init (Samples.frame [Samples.pinch_hand "Right"] 0)))
    = Some w'
    /\ GameWindow.game_state w' = "launcher"%string
    /\ GameWindow.launcher_visible w' = true
    /\ GameWindow.is_grasping w' = false.
Proof.
  apply (pinch_returns_home Samples.exact_pow WindowSamples.open_drawing
           (WindowSamples.with_ticks
              (signals Samples.exact_pow init (Samples.frame [Samples.pinch_hand "Right"] 0)))
           WindowSamples.drawing init (Samples.frame [Samples.pinch_hand "Right"] 0)).
  - reflexivity.
  - vm_compute. reflexivity.
  - vm_compute. reflexivity.
Defined.
